(** * The expense store of [main.go]: connection provider and CRUD layer

    A shallow embedding of [main.go]: the package-level variables
    ([clientInstance], [clientInstanceError], [mongoOnce]) become an explicit
    state, every function of the file becomes a state-passing function of the
    same name, and every call into the MongoDB driver is recorded in a trace.

    The MongoDB driver and Go's [sync] package are libraries the file
    imports.  The driver is a parameter ([Driver]); [MemStore] is a reference
    implementation of it (an in-memory collection with MongoDB's exact-match
    filters).  [sync.Once] is modelled twice: sequentially (a flag), and in
    [Module Concurrent] as its implementation (an atomic flag and a mutex)
    under every interleaving of the callers.  A driver call is taken by what
    it returns; the one call of the file that can be made on the nil client,
    [Ping] in the initialization block, is modelled with its panic in
    [Module NilClient]. *)

From Stdlib Require Import ZArith Lia.
From stdpp Require Import base decidable option numbers list strings.

Local Open Scope string_scope.
Local Open Scope list_scope.

(** ** Values of the Go program *)

(** [primitive.ObjectID] is [[12]byte]: the 96-bit number of its bytes; the
    zero value is the unset identifier of a transient [Expense]. *)
Definition ObjectID := Z.

(** [float64] by its IEEE-754 bit pattern, and [time.Time] as an instant in
    nanoseconds since the Unix epoch, the resolution of a Go time. *)
Definition float64 := Z.
Definition Time := Z.

(** A BSON datetime is a number of whole milliseconds since the Unix epoch:
    the milliseconds of a Go time, rounded down, and the Go time a datetime
    decodes to. *)
Definition millis (t : Time) : Z := (t / 1000000)%Z.
Definition of_millis (ms : Z) : Time := (ms * 1000000)%Z.

Record Expense := mkExpense {
  ID : ObjectID;
  ExpenseID : string;
  Title : string;
  Amount : float64;
  Date : Time
}.

(** [Expense{}] *)
Definition Expense_zero : Expense := mkExpense 0%Z "" "" 0%Z 0%Z.

#[global] Instance Expense_eq_dec : EqDecision Expense.
Proof. solve_decision. Defined.

(** Go's [error]: [None] is [nil].  [mongo.ErrNoDocuments] is the one error
    value the file names; every other error comes from the driver. *)
Inductive err_value :=
| ErrNoDocuments
| DriverError (msg : string).

#[global] Instance err_value_eq_dec : EqDecision err_value.
Proof. solve_decision. Defined.

Definition error := option err_value.

(** [*mongo.Client]: [None] is the nil pointer. *)
Definition ClientPtr := option nat.

(** [interface{}] as the file uses it: nil, or an [Expense]. *)
Inductive iface :=
| INil
| IExpense (e : Expense).

#[global] Instance iface_eq_dec : EqDecision iface.
Proof. solve_decision. Defined.

(** BSON values and [bson.D], the ordered list of [primitive.E{Key, Value}]. *)
Inductive bson_value :=
| BNull
| BObjectID (o : ObjectID)
| BString (s : string)
| BDouble (f : float64)
| BDateTime (ms : Z).

#[global] Instance bson_value_eq_dec : EqDecision bson_value.
Proof. solve_decision. Defined.

Definition bsonD := list (string * bson_value).

Definition DBName : string := "expenses".
Definition ExpenseCollections : string := "expense".
Definition URI : string := "mongodb://localhost:27017".

(** [bson.D{primitive.E{Key: "expenseID", Value: id}}] *)
Definition filter_by_expenseID (id : string) : bsonD := [("expenseID", BString id)].

(** [bson.D{{}}]: one element with the zero key and the nil value. *)
Definition filter_all : bsonD := [("", BNull)].

(** ** The BSON form of an [Expense], by the struct tags *)

Definition bson_Marshal (e : Expense) : bsonD :=
  [ ("_id", BObjectID (ID e));
    ("expenseID", BString (ExpenseID e));
    ("title", BString (Title e));
    ("amount", BDouble (Amount e));
    ("date", BDateTime (millis (Date e))) ].

(** Decoding one element into the struct: the field with that tag is set
    when the value has the field's type, a value of another type is a decode
    error, an unknown key is skipped.  This is the decoding of the documents
    the layer itself writes; the driver accepts more (a null, an identifier
    written as a string, a key in another case), which no statement below
    relies on. *)
Definition decode_field (kv : string * bson_value) (e : Expense) : Expense + err_value :=
  let '(k, v) := kv in
  if String.eqb k "_id" then
    match v with
    | BObjectID o => inl (mkExpense o (ExpenseID e) (Title e) (Amount e) (Date e))
    | _ => inr (DriverError "cannot decode into an ObjectID")
    end
  else if String.eqb k "expenseID" then
    match v with
    | BString s => inl (mkExpense (ID e) s (Title e) (Amount e) (Date e))
    | _ => inr (DriverError "cannot decode into a string")
    end
  else if String.eqb k "title" then
    match v with
    | BString s => inl (mkExpense (ID e) (ExpenseID e) s (Amount e) (Date e))
    | _ => inr (DriverError "cannot decode into a string")
    end
  else if String.eqb k "amount" then
    match v with
    | BDouble f => inl (mkExpense (ID e) (ExpenseID e) (Title e) f (Date e))
    | _ => inr (DriverError "cannot decode into a float64")
    end
  else if String.eqb k "date" then
    match v with
    | BDateTime ms => inl (mkExpense (ID e) (ExpenseID e) (Title e) (Amount e) (of_millis ms))
    | _ => inr (DriverError "cannot decode into a time.Time")
    end
  else inl e.

(** Decoding a document into [*Expense]: the value written so far and the
    error, if any. *)
Fixpoint bson_Unmarshal (d : bsonD) (e : Expense) : Expense * error :=
  match d with
  | [] => (e, None)
  | kv :: d' =>
      match decode_field kv e with
      | inl e' => bson_Unmarshal d' e'
      | inr err => (e, Some err)
      end
  end.

(** [*mongo.SingleResult]: an error, or the document found. *)
Inductive SingleResult :=
| SRErr (e : err_value)
| SRDoc (d : bsonD).

(** [Decode(&result)] on a [SingleResult] *)
Definition SingleResult_Decode (r : SingleResult) (result : Expense) : Expense * error :=
  match r with
  | SRErr e => (result, Some e)
  | SRDoc d => bson_Unmarshal d result
  end.

(** [*mongo.Cursor]: the documents not yet iterated.  A query has a finite
    result, so [cur.Next] returns false after finitely many calls. *)
Definition Cursor := list bsonD.

(** ** The driver *)

(** What the file calls of the driver, as functions of the state of the
    outside world (the server, the network).  A collection handle is the
    client with the database and collection names.  A call is its return
    values: a driver call that panics is not modelled. *)
Record Driver := mkDriver {
  World : Type;
  mongo_Connect : string -> World -> (ClientPtr * error) * World;
  Client_Ping : ClientPtr -> World -> error * World;
  Collection_InsertOne : ClientPtr -> string -> string -> iface -> World -> error * World;
  Collection_InsertMany : ClientPtr -> string -> string -> list iface -> World -> error * World;
  Collection_FindOne : ClientPtr -> string -> string -> bsonD -> World -> SingleResult * World;
  Collection_Find : ClientPtr -> string -> string -> bsonD -> World -> (Cursor * error) * World;
  Collection_DeleteOne : ClientPtr -> string -> string -> bsonD -> World -> error * World;
  Collection_DeleteMany : ClientPtr -> string -> string -> bsonD -> World -> error * World
}.

(** The driver calls, as the trace records them. *)
Inductive Event :=
| EvConnect (uri : string)
| EvPing (c : ClientPtr)
| EvInsertOne (c : ClientPtr) (db coll : string) (doc : iface)
| EvInsertMany (c : ClientPtr) (db coll : string) (docs : list iface)
| EvFindOne (c : ClientPtr) (db coll : string) (filter : bsonD)
| EvFind (c : ClientPtr) (db coll : string) (filter : bsonD)
| EvDeleteOne (c : ClientPtr) (db coll : string) (filter : bsonD)
| EvDeleteMany (c : ClientPtr) (db coll : string) (filter : bsonD)
| EvCursorNext
| EvCursorDecode
| EvCursorClose.

#[global] Instance Event_eq_dec : EqDecision Event.
Proof. solve_decision. Defined.

(** The calls of the initialization block. *)
Definition is_init_event (ev : Event) : bool :=
  match ev with
  | EvConnect _ | EvPing _ => true
  | _ => false
  end.

(** The calls on a collection or on a cursor. *)
Definition is_document_op (ev : Event) : bool := negb (is_init_event ev).

(** ** Sequential semantics *)

Section Program.

Context {D : Driver}.

(** The package-level variables, the world and the trace. *)
Record State := mkState {
  clientInstance : ClientPtr;
  clientInstanceError : error;
  mongoOnce : bool;
  world : World D;
  trace : list Event
}.

(** The state at program start: the zero values. *)
Definition initial (w : World D) : State := mkState None None false w [].

Definition M (A : Type) : Type := State -> A * State.

Definition ret {A} (a : A) : M A := fun s => (a, s).

Definition bind {A B} (m : M A) (k : A -> M B) : M B :=
  fun s => let '(a, s') := m s in k a s'.

Definition log (ev : Event) : M unit :=
  fun s => (tt, mkState (clientInstance s) (clientInstanceError s) (mongoOnce s)
                        (world s) (trace s ++ [ev])).

Definition call {A} (f : World D -> A * World D) : M A :=
  fun s => let '(a, w) := f (world s) in
           (a, mkState (clientInstance s) (clientInstanceError s) (mongoOnce s)
                       w (trace s)).

Definition set_clientInstance (c : ClientPtr) : M unit :=
  fun s => (tt, mkState c (clientInstanceError s) (mongoOnce s) (world s) (trace s)).

Definition set_clientInstanceError (e : error) : M unit :=
  fun s => (tt, mkState (clientInstance s) e (mongoOnce s) (world s) (trace s)).

Definition get_clientInstance : M ClientPtr := fun s => (clientInstance s, s).

Definition get_clientInstanceError : M error := fun s => (clientInstanceError s, s).

End Program.

Arguments State : clear implicits.
Arguments M : clear implicits.

Notation "'let*' p ':=' c1 'in' c2" := (bind c1 (fun p => c2))
  (at level 10, p pattern, c1 at level 100, c2 at level 200, only parsing).
Notation "c1 '>>' c2" := (bind c1 (fun _ => c2))
  (at level 100, c2 at level 200, right associativity, only parsing).

Section Operations.

Context {D : Driver}.

(** [mongoOnce.Do(f)] with one goroutine: [f] runs when the guard has not
    fired, and the guard has fired when [Do] returns. *)
Definition mongoOnce_Do (f : M D unit) : M D unit :=
  fun s =>
    if mongoOnce s then (tt, s)
    else
      let '(_, s') := f s in
      (tt, mkState (clientInstance s') (clientInstanceError s') true
                   (world s') (trace s')).

(** The function literal passed to [mongoOnce.Do]. *)
Definition init_block : M D unit :=
  log (EvConnect URI) >>
  let* (client, err) := call (mongo_Connect D URI) in
  (match err with
   | Some _ => set_clientInstanceError err
   | None => ret tt
   end) >>
  log (EvPing client) >>
  let* err := call (Client_Ping D client) in
  (match err with
   | Some _ => set_clientInstanceError err
   | None => ret tt
   end) >>
  set_clientInstance client.

Definition GetMongoClient : M D (ClientPtr * error) :=
  mongoOnce_Do init_block >>
  let* c := get_clientInstance in
  let* e := get_clientInstanceError in
  ret (c, e).

Definition CreateExpense (expense : Expense) : M D error :=
  let* (client, err) := GetMongoClient in
  match err with
  | Some _ => ret err
  | None =>
      log (EvInsertOne client DBName ExpenseCollections (IExpense expense)) >>
      let* err := call (Collection_InsertOne D client DBName ExpenseCollections (IExpense expense)) in
      match err with
      | Some _ => ret err
      | None => ret None
      end
  end.

(** [for i, v := range list { insertableList[i] = v }], from index [i] on.
    The slice has the length of the list, so the index is in range. *)
Fixpoint range_assign (i : nat) (lst : list Expense) (insertableList : list iface)
  : list iface :=
  match lst with
  | [] => insertableList
  | v :: rest => range_assign (S i) rest (<[i := IExpense v]> insertableList)
  end.

(** [make([]interface{}, len(list))] and the loop over it. *)
Definition to_insertable (lst : list Expense) : list iface :=
  range_assign 0 lst (replicate (length lst) INil).

Definition CreateManyExpenses (lst : list Expense) : M D error :=
  let insertableList := to_insertable lst in
  let* (client, err) := GetMongoClient in
  match err with
  | Some _ => ret err
  | None =>
      log (EvInsertMany client DBName ExpenseCollections insertableList) >>
      let* err := call (Collection_InsertMany D client DBName ExpenseCollections insertableList) in
      match err with
      | Some _ => ret err
      | None => ret None
      end
  end.

Definition GetExpensesByID (id : string) : M D (Expense * error) :=
  let result := Expense_zero in
  let filter := filter_by_expenseID id in
  let* (client, err) := GetMongoClient in
  match err with
  | Some _ => ret (result, err)
  | None =>
      log (EvFindOne client DBName ExpenseCollections filter) >>
      let* sr := call (Collection_FindOne D client DBName ExpenseCollections filter) in
      let '(result, err) := SingleResult_Decode sr result in
      match err with
      | Some _ => ret (result, err)
      | None => ret (result, None)
      end
  end.

(** The loop [for cur.Next(ctx) { ... }] of [GetAllIssues]: [inl] is the
    [return issues, err] inside the loop, [inr] the exhausted cursor. *)
Fixpoint iterate (cur : Cursor) (issues : list Expense)
  : M D (list Expense * error + list Expense) :=
  match cur with
  | [] => log EvCursorNext >> ret (inr issues)
  | d :: cur' =>
      log EvCursorNext >>
      log EvCursorDecode >>
      let '(t, err) := bson_Unmarshal d Expense_zero in
      match err with
      | Some _ => ret (inl (issues, err))
      | None => iterate cur' (issues ++ [t])
      end
  end.

Definition GetAllIssues : M D (list Expense * error) :=
  let filter := filter_all in
  let issues := [] in
  let* (client, err) := GetMongoClient in
  match err with
  | Some _ => ret (issues, err)
  | None =>
      log (EvFind client DBName ExpenseCollections filter) >>
      let* (cur, findError) := call (Collection_Find D client DBName ExpenseCollections filter) in
      match findError with
      | Some _ => ret (issues, findError)
      | None =>
          let* r := iterate cur issues in
          match r with
          | inl early => ret early
          | inr issues =>
              log EvCursorClose >>
              if Nat.eqb (length issues) 0 then ret (issues, Some ErrNoDocuments)
              else ret (issues, None)
          end
      end
  end.

Definition DeleteExpense (code : string) : M D error :=
  let filter := filter_by_expenseID code in
  let* (client, err) := GetMongoClient in
  match err with
  | Some _ => ret err
  | None =>
      log (EvDeleteOne client DBName ExpenseCollections filter) >>
      let* err := call (Collection_DeleteOne D client DBName ExpenseCollections filter) in
      match err with
      | Some _ => ret err
      | None => ret None
      end
  end.

Definition DeleteAll : M D error :=
  let selector := filter_all in
  let* (client, err) := GetMongoClient in
  match err with
  | Some _ => ret err
  | None =>
      log (EvDeleteMany client DBName ExpenseCollections selector) >>
      let* err := call (Collection_DeleteMany D client DBName ExpenseCollections selector) in
      match err with
      | Some _ => ret err
      | None => ret None
      end
  end.

(** [main] *)
Definition main : M D unit := DeleteExpense "1d" >> ret tt.

End Operations.

(** ** A reference driver: an in-memory store *)

Module MemStore.

(** The outside world: what connecting and pinging report, a transport
    failure that every collection operation reports when set, how the
    server treats the [_id] of an inserted document (the identifier it is
    stored under, or [None] to reject it), and the collections by database
    and collection name, each in insertion order. *)
Record Store := mkStore {
  connect_err : error;
  ping_err : error;
  op_err : error;
  assign_id : list bsonD -> ObjectID -> option ObjectID;
  colls : string -> string -> list bsonD
}.

Definition set_coll (db coll : string) (docs : list bsonD) (w : Store) : Store :=
  mkStore (connect_err w) (ping_err w) (op_err w) (assign_id w)
    (fun db' coll' =>
       if (String.eqb db' db && String.eqb coll' coll)%bool then docs
       else colls w db' coll').

(** The value of the first element with key [k]. *)
Fixpoint lookup_field (k : string) (d : bsonD) : option bson_value :=
  match d with
  | [] => None
  | (k', v) :: d' => if String.eqb k k' then Some v else lookup_field k d'
  end.

(** An equality filter: every element of the filter is the value of that
    field in the document; a null in the filter also matches a document
    without the field. *)
Definition matches (filter d : bsonD) : bool :=
  forallb (fun kv : string * bson_value =>
             match lookup_field (fst kv) d with
             | Some v' => bool_decide (v' = snd kv)
             | None => bool_decide (snd kv = BNull)
             end) filter.

Fixpoint delete_first (filter : bsonD) (docs : list bsonD) : list bsonD :=
  match docs with
  | [] => []
  | d :: docs' => if matches filter d then docs' else d :: delete_first filter docs'
  end.

Definition with_id (i : ObjectID) (e : Expense) : Expense :=
  mkExpense i (ExpenseID e) (Title e) (Amount e) (Date e).

(** One document written to a collection. *)
Definition insert_doc (w : Store) (doc : iface) (docs : list bsonD) : list bsonD * error :=
  match doc with
  | INil => (docs, Some (DriverError "document is nil"))
  | IExpense e =>
      match assign_id w docs (ID e) with
      | None => (docs, Some (DriverError "duplicate key"))
      | Some i => (docs ++ [bson_Marshal (with_id i e)], None)
      end
  end.

(** An ordered bulk write: it stops at the first document that fails. *)
Fixpoint insert_docs (w : Store) (new : list iface) (docs : list bsonD) : list bsonD * error :=
  match new with
  | [] => (docs, None)
  | doc :: new' =>
      match insert_doc w doc docs with
      | (docs', None) => insert_docs w new' docs'
      | r => r
      end
  end.

Definition Connect (uri : string) (w : Store) : (ClientPtr * error) * Store :=
  match connect_err w with
  | Some e => ((None, Some e), w)
  | None => ((Some 1, None), w)
  end.

(** What a ping reports.  On the nil client the driver does not return:
    that call is in [NilClient]. *)
Definition Ping (c : ClientPtr) (w : Store) : error * Store := (ping_err w, w).

(** A collection operation is refused without a client and under a
    transport failure. *)
Definition refused (c : ClientPtr) (w : Store) : error :=
  match c with
  | None => Some (DriverError "client is nil")
  | Some _ => op_err w
  end.

Definition InsertOne (c : ClientPtr) (db coll : string) (doc : iface) (w : Store)
  : error * Store :=
  match refused c w with
  | Some e => (Some e, w)
  | None =>
      let '(docs, err) := insert_doc w doc (colls w db coll) in
      (err, set_coll db coll docs w)
  end.

Definition InsertMany (c : ClientPtr) (db coll : string) (new : list iface) (w : Store)
  : error * Store :=
  match refused c w with
  | Some e => (Some e, w)
  | None =>
      match new with
      | [] => (Some (DriverError "must provide at least one element in input slice"), w)
      | _ =>
          let '(docs, err) := insert_docs w new (colls w db coll) in
          (err, set_coll db coll docs w)
      end
  end.

Definition FindOne (c : ClientPtr) (db coll : string) (filter : bsonD) (w : Store)
  : SingleResult * Store :=
  match refused c w with
  | Some e => (SRErr e, w)
  | None =>
      match List.find (matches filter) (colls w db coll) with
      | Some d => (SRDoc d, w)
      | None => (SRErr ErrNoDocuments, w)
      end
  end.

Definition Find (c : ClientPtr) (db coll : string) (filter : bsonD) (w : Store)
  : (Cursor * error) * Store :=
  match refused c w with
  | Some e => (([], Some e), w)
  | None => ((List.filter (matches filter) (colls w db coll), None), w)
  end.

Definition DeleteOne (c : ClientPtr) (db coll : string) (filter : bsonD) (w : Store)
  : error * Store :=
  match refused c w with
  | Some e => (Some e, w)
  | None => (None, set_coll db coll (delete_first filter (colls w db coll)) w)
  end.

Definition DeleteMany (c : ClientPtr) (db coll : string) (filter : bsonD) (w : Store)
  : error * Store :=
  match refused c w with
  | Some e => (Some e, w)
  | None =>
      (None, set_coll db coll
               (List.filter (fun d => negb (matches filter d)) (colls w db coll)) w)
  end.

Definition driver : Driver :=
  mkDriver Store Connect Ping InsertOne InsertMany FindOne Find DeleteOne DeleteMany.

(** The server keeps the [_id] it is given and rejects one already in the
    collection. *)
Definition unique_id (docs : list bsonD) (i : ObjectID) : option ObjectID :=
  if existsb (fun d => bool_decide (lookup_field "_id" d = Some (BObjectID i))) docs
  then None else Some i.

(** A reachable server with the given documents in [expenses.expense]. *)
Definition healthy (docs : list bsonD) : Store :=
  mkStore None None None unique_id
    (fun db coll =>
       if (String.eqb db DBName && String.eqb coll ExpenseCollections)%bool then docs
       else []).

(** The documents of [expenses.expense]. *)
Definition expenses (w : Store) : list bsonD := colls w DBName ExpenseCollections.

End MemStore.

(** The program on the reference store, and its state at program start. *)
Abbreviation MState := (State MemStore.driver).
Abbreviation init_state w := (@initial MemStore.driver w).

(** ** Concurrent callers *)

Module Concurrent.

Section Model.

Context {D : Driver}.

Definition tid := nat.

(** Where a goroutine stands in its call of [GetMongoClient].
    [mongoOnce.Do(f)] is [sync.Once.Do]: a load of the [done] flag, and
    when it is unset [doSlow]: lock the mutex, load [done] again, and
    when still unset run [f], then store [done]; unlock. *)
Inductive pc :=
| AtCall
| AtLock
| AtCheck
| AtConnect
| AtPing (client : ClientPtr)
| AtStore (client : ClientPtr)
| AtSetDone
| AtUnlock
| AtReturn
| Returned (c : ClientPtr) (e : error).

(** The package-level variables with the world and the trace ([shared],
    whose [mongoOnce] is the [done] flag), the owner of the mutex of
    [mongoOnce], and every goroutine's position. *)
Record CState := mkCState {
  shared : State D;
  mutex : option tid;
  pcs : tid -> pc
}.

Definition cinit (w : World D) : CState :=
  mkCState (initial w) None (fun _ => AtCall).

Definition goto (t : tid) (p : pc) (s : CState) : CState :=
  mkCState (shared s) (mutex s)
           (fun t' => if Nat.eqb t' t then p else pcs s t').

Definition with_shared (sh : State D) (s : CState) : CState :=
  mkCState sh (mutex s) (pcs s).

Definition with_mutex (m : option tid) (s : CState) : CState :=
  mkCState (shared s) m (pcs s).

(** [client, err := mongo.Connect(...); if err != nil { clientInstanceError = err }] *)
Definition do_connect : M D ClientPtr :=
  log (EvConnect URI) >>
  let* (client, err) := call (mongo_Connect D URI) in
  (match err with
   | Some _ => set_clientInstanceError err
   | None => ret tt
   end) >>
  ret client.

(** [err = client.Ping(...); if err != nil { clientInstanceError = err }] *)
Definition do_ping (client : ClientPtr) : M D unit :=
  log (EvPing client) >>
  let* err := call (Client_Ping D client) in
  match err with
  | Some _ => set_clientInstanceError err
  | None => ret tt
  end.

Definition set_done (sh : State D) : State D :=
  mkState (clientInstance sh) (clientInstanceError sh) true (world sh) (trace sh).

(** One step of goroutine [t].  A goroutine waiting for the mutex, and
    one that has returned, do not move. *)
Definition step (t : tid) (s : CState) : CState :=
  match pcs s t with
  | AtCall =>
      if mongoOnce (shared s) then goto t AtReturn s else goto t AtLock s
  | AtLock =>
      match mutex s with
      | None => goto t AtCheck (with_mutex (Some t) s)
      | Some _ => s
      end
  | AtCheck =>
      if mongoOnce (shared s) then goto t AtUnlock s else goto t AtConnect s
  | AtConnect =>
      let '(client, sh) := do_connect (shared s) in
      goto t (AtPing client) (with_shared sh s)
  | AtPing client =>
      let '(_, sh) := do_ping client (shared s) in
      goto t (AtStore client) (with_shared sh s)
  | AtStore client =>
      let '(_, sh) := set_clientInstance client (shared s) in
      goto t AtSetDone (with_shared sh s)
  | AtSetDone => goto t AtUnlock (with_shared (set_done (shared s)) s)
  | AtUnlock => goto t AtReturn (with_mutex None s)
  | AtReturn =>
      goto t (Returned (clientInstance (shared s)) (clientInstanceError (shared s))) s
  | Returned _ _ => s
  end.

(** The goroutines scheduled in the order of [sched]. *)
Fixpoint run (sched : list tid) (s : CState) : CState :=
  match sched with
  | [] => s
  | t :: sched' => run sched' (step t s)
  end.

End Model.

Arguments CState : clear implicits.

End Concurrent.

(** ** Vocabulary of the statements *)

(** The error left in [clientInstanceError] by the initialization block:
    each step writes only an error that is not nil, the later step last. *)
Definition recorded (prev connectErr pingErr : error) : error :=
  match pingErr with
  | Some _ => pingErr
  | None => match connectErr with
            | Some _ => connectErr
            | None => prev
            end
  end.

(** The calls of the initialization block in a trace, and the calls on
    collections and cursors. *)
Definition init_events (tr : list Event) : list Event := List.filter is_init_event tr.
Definition document_ops (tr : list Event) : list Event := List.filter is_document_op tr.

(** How many times a cursor was closed. *)
Definition closes (tr : list Event) : nat :=
  length (List.filter (fun ev => bool_decide (ev = EvCursorClose)) tr).

(** [t := Expense{}; err := cur.Decode(&t)] *)
Definition decode_doc (d : bsonD) : Expense * error := bson_Unmarshal d Expense_zero.

(** An Expense with its date at the resolution of the store: the digits
    below the millisecond dropped. *)
Definition at_ms (e : Expense) : Expense :=
  mkExpense (ID e) (ExpenseID e) (Title e) (Amount e) (of_millis (millis (Date e))).

(** The exported operations, to speak of arbitrary call sequences. *)
Inductive Op :=
| OpGetMongoClient
| OpCreateExpense (expense : Expense)
| OpCreateManyExpenses (lst : list Expense)
| OpGetExpensesByID (id : string)
| OpGetAllIssues
| OpDeleteExpense (code : string)
| OpDeleteAll.

Definition exec {D : Driver} (o : Op) (s : State D) : State D :=
  match o with
  | OpGetMongoClient => snd (GetMongoClient s)
  | OpCreateExpense e => snd (CreateExpense e s)
  | OpCreateManyExpenses l => snd (CreateManyExpenses l s)
  | OpGetExpensesByID id => snd (GetExpensesByID id s)
  | OpGetAllIssues => snd (GetAllIssues s)
  | OpDeleteExpense code => snd (DeleteExpense code s)
  | OpDeleteAll => snd (DeleteAll s)
  end.

Definition exec_all {D : Driver} (ops : list Op) (s : State D) : State D :=
  fold_left (fun s o => exec o s) ops s.

(** The package-level variables and the initialization calls made so far. *)
Definition same_provider {D : Driver} (s s' : State D) : Prop :=
  clientInstance s' = clientInstance s /\
  clientInstanceError s' = clientInstanceError s /\
  mongoOnce s' = mongoOnce s /\
  init_events (trace s') = init_events (trace s).

(** A state with further calls recorded. *)
Definition logged {D : Driver} (evs : list Event) (s : State D) : State D :=
  mkState (clientInstance s) (clientInstanceError s) (mongoOnce s) (world s)
          (trace s ++ evs).

(** The same state in another world. *)
Definition in_world {D : Driver} (w : World D) (s : State D) : State D :=
  mkState (clientInstance s) (clientInstanceError s) (mongoOnce s) w (trace s).


(** The Expense of the commented-out lines of [main], not yet persisted:
    3.50 is [0x400C000000000000] as a [float64]. *)
Definition main_expense : Expense :=
  mkExpense 0%Z "1d" "First expense" 4615063718147915776%Z 1700000000000%Z.

(** The same Expense with the date a clock gives, as [time.Now()] in those
    lines: a time with digits below the millisecond. *)
Definition now_expense : Expense :=
  mkExpense 0%Z "1d" "First expense" 4615063718147915776%Z 1700000000123456789%Z.

(** An Expense stored earlier under the same [expenseID]. *)
Definition earlier_expense : Expense :=
  mkExpense 7%Z "1d" "Earlier expense" 4607182418800017408%Z 1600000000000%Z.

Definition second_expense : Expense :=
  mkExpense 9%Z "2d" "Second expense" 4611686018427387904%Z 1700000001000%Z.

(** A document whose [title] is a number: it does not decode into an
    [Expense]. *)
Definition undecodable : bsonD := [("expenseID", BString "x"); ("title", BDouble 1%Z)].

(** Two goroutines calling [GetMongoClient] at once. *)
Definition two_callers : list Concurrent.tid :=
  [0; 1; 0; 1; 0; 1; 0; 0; 1; 0; 0; 0; 0; 1; 1; 1; 1].

(** *** The stages of the one initialization

    The states the package-level variables go through when the
    initialization block runs once from the start of the program in world
    [w], and the invariant of the concurrent callers in terms of them. *)

Module Stages.

Import Concurrent.

Section Stages.

Context {D : Driver} (w : World D).

Definition st0 : State D := initial w.
Definition c1 : ClientPtr := fst (do_connect st0).
Definition st1 : State D := snd (do_connect st0).
Definition st2 : State D := snd (do_ping c1 st1).
Definition st3 : State D := snd (set_clientInstance c1 st2).
Definition st4 : State D := set_done st3.

(** What the position [p] of goroutine [t] says about the owner [m] of
    the mutex and the package-level variables [sh]. *)
Definition pc_spec (p : pc) (m : option tid) (sh : State D) (t : tid) : Prop :=
  match p with
  | AtCall | AtLock => m <> Some t
  | AtCheck => m = Some t
  | AtConnect => m = Some t /\ sh = st0
  | AtPing c => m = Some t /\ c = c1 /\ sh = st1
  | AtStore c => m = Some t /\ c = c1 /\ sh = st2
  | AtSetDone => m = Some t /\ sh = st3
  | AtUnlock => m = Some t /\ sh = st4
  | AtReturn => m <> Some t /\ sh = st4
  | Returned c e =>
      m <> Some t /\ sh = st4 /\
      c = clientInstance st4 /\ e = clientInstanceError st4
  end.

Definition pc_ok (s : CState D) (t : tid) : Prop :=
  pc_spec (pcs s t) (mutex s) (shared s) t.

(** The positions inside the function passed to [mongoOnce.Do], after
    its first step. *)
Definition in_block (p : pc) : bool :=
  match p with
  | AtPing _ | AtStore _ | AtSetDone => true
  | _ => false
  end.

(** The positions between [Lock] and [Unlock]. *)
Definition critical (p : pc) : bool :=
  match p with
  | AtCheck | AtConnect | AtPing _ | AtStore _ | AtSetDone | AtUnlock => true
  | _ => false
  end.

(** No goroutine is inside the block. *)
Definition quiescent (s : CState D) : Prop :=
  match mutex s with
  | Some h => in_block (pcs s h) = false
  | None => True
  end.

Definition Inv (s : CState D) : Prop :=
  (forall t, pc_ok s t) /\
  (quiescent s -> shared s = st0 \/ shared s = st4).


End Stages.

End Stages.

(** *** Vocabulary of the further properties *)

(** The error an operation returns. *)
Definition result_of {D : Driver} (o : Op) (s : State D) : error :=
  match o with
  | OpGetMongoClient => snd (fst (GetMongoClient s))
  | OpCreateExpense e => fst (CreateExpense e s)
  | OpCreateManyExpenses l => fst (CreateManyExpenses l s)
  | OpGetExpensesByID id => snd (fst (GetExpensesByID id s))
  | OpGetAllIssues => snd (fst (GetAllIssues s))
  | OpDeleteExpense code => fst (DeleteExpense code s)
  | OpDeleteAll => fst (DeleteAll s)
  end.

(** The calls on a collection (not those on a cursor). *)
Definition is_collection_call (ev : Event) : bool :=
  match ev with
  | EvInsertOne _ _ _ _ | EvInsertMany _ _ _ _ | EvFindOne _ _ _ _
  | EvFind _ _ _ _ | EvDeleteOne _ _ _ _ | EvDeleteMany _ _ _ _ => true
  | _ => false
  end.

(** A call on a collection is made with client [c] on [expenses.expense]. *)
Definition on_expense_collection (c : ClientPtr) (ev : Event) : bool :=
  match ev with
  | EvInsertOne c' db coll _ | EvInsertMany c' db coll _ | EvFindOne c' db coll _
  | EvFind c' db coll _ | EvDeleteOne c' db coll _ | EvDeleteMany c' db coll _ =>
      bool_decide (c' = c) && String.eqb db DBName && String.eqb coll ExpenseCollections
  | _ => true
  end.

(** The calls on a cursor. *)
Definition is_cursor_event (ev : Event) : bool :=
  match ev with
  | EvCursorNext | EvCursorDecode | EvCursorClose => true
  | _ => false
  end.

(** Two Expenses that differ at most in the identifier. *)
Definition same_fields (a b : Expense) : Prop :=
  ExpenseID a = ExpenseID b /\ Title a = Title b /\
  Amount a = Amount b /\ Date a = Date b.

(** The documents a filter selects, in the order of the collection. *)
Definition selected (filter : bsonD) (docs : list bsonD) : list bsonD :=
  List.filter (MemStore.matches filter) docs.

(** Two stores that agree on the configuration of the server and on every
    collection other than [expenses.expense]. *)
Definition elsewhere_same (w w' : MemStore.Store) : Prop :=
  MemStore.connect_err w' = MemStore.connect_err w /\
  MemStore.ping_err w' = MemStore.ping_err w /\
  MemStore.op_err w' = MemStore.op_err w /\
  MemStore.assign_id w' = MemStore.assign_id w /\
  forall db coll,
    (String.eqb db DBName && String.eqb coll ExpenseCollections)%bool = false ->
    MemStore.colls w' db coll = MemStore.colls w db coll.

(** ** The component of [ExpenseItem.js]

    The function component with its one state hook.  React is a library:
    [useState] is modelled by its contract (the initial value is used by the
    first render only, the setter replaces the state), an element is a tag
    with attributes and children, and [Card] and [ExpenseDate], components of
    other files, stay unexpanded elements. *)

Module ExpenseItem.

Inductive js_value :=
| JUndefined
| JString (s : string)
| JNumber (bits : Z)
| JDate (ms : Z).

Record Props := mkProps {
  title : js_value;
  amount : js_value;
  date : js_value
}.

(** What a handler does when called. *)
Inductive action :=
| SetTitle (v : js_value).

Inductive attr :=
| AString (s : string)
| AValue (v : js_value)
| AHandler (a : action).

Local Unset Elimination Schemes.
Inductive element :=
| Elem (tag : string) (attrs : list (string * attr)) (children : list element)
| Text (v : js_value).
Local Set Elimination Schemes.

(** The state of the hook of one mounted component: [None] before the first
    render. *)
Definition Hook := option js_value.

(** [useState(initial)]: the current state, and the hook after the render. *)
Definition useState (initial : js_value) (h : Hook) : js_value * Hook :=
  match h with
  | None => (initial, Some initial)
  | Some v => (v, Some v)
  end.

(** [const clickHandler = () => { SetTitle("Updated!"); }] *)
Definition clickHandler : action := SetTitle (JString "Updated!").

(** One render of the component. *)
Definition ExpenseItem (props : Props) (h : Hook) : element * Hook :=
  let '(title, h') := useState (title props) h in
  (Elem "Card" [("className", AString "expense-item")]
     [ Elem "ExpenseDate" [("date", AValue (date props))] [];
       Elem "div" [("className", AString "expense-item__description")]
         [ Elem "h2" [] [Text title] ];
       Elem "div" [("className", AString "expense-item__price")]
         [ Text (amount props) ];
       Elem "button" [("onClick", AHandler clickHandler)]
         [ Text (JString "Change Title") ] ],
   h').

(** Calling a handler. *)
Definition perform (a : action) (h : Hook) : Hook :=
  match a with
  | SetTitle v => Some v
  end.

(** What the user does to a mounted component: the parent renders it again
    with new props, or the button is clicked. *)
Inductive interaction :=
| Rerender (props : Props)
| Click.

(** The first element, in document order, whose tag and attributes satisfy
    [p]. *)
Fixpoint find_elem (p : string -> list (string * attr) -> bool) (el : element)
  : option element :=
  match el with
  | Text _ => None
  | Elem t attrs children =>
      if p t attrs then Some el
      else
        (fix first (els : list element) : option element :=
           match els with
           | [] => None
           | e :: els' =>
               match find_elem p e with
               | Some r => Some r
               | None => first els'
               end
           end) children
  end.

Definition find_tag (tag : string) : element -> option element :=
  find_elem (fun t _ => String.eqb t tag).

(** [className] of an element. *)
Definition has_class (c : string) (attrs : list (string * attr)) : bool :=
  existsb (fun kv => match kv with
                     | (k, AString v) => String.eqb k "className" && String.eqb v c
                     | _ => false
                     end) attrs.

Definition find_class (c : string) : element -> option element :=
  find_elem (fun _ attrs => has_class c attrs).

(** The handler a click on the button calls. *)
Definition onClick (el : element) : option action :=
  match find_tag "button" el with
  | Some (Elem _ [(_, AHandler a)] _) => Some a
  | _ => None
  end.

(** The component on the screen: the props of the last render and the hook.
    A click calls the handler of the button of the last render, and React
    renders the component again with the same props. *)
Record Mounted := mkMounted {
  last_props : Props;
  hook : Hook
}.

Definition mount (props : Props) : Mounted :=
  mkMounted props (snd (ExpenseItem props None)).

Definition interact (i : interaction) (m : Mounted) : Mounted :=
  match i with
  | Rerender props => mkMounted props (snd (ExpenseItem props (hook m)))
  | Click =>
      match onClick (fst (ExpenseItem (last_props m) (hook m))) with
      | Some a =>
          let h := perform a (hook m) in
          mkMounted (last_props m) (snd (ExpenseItem (last_props m) h))
      | None => m
      end
  end.

Definition view (m : Mounted) : element := fst (ExpenseItem (last_props m) (hook m)).

(** The only child of an element, when it is a text. *)
Definition text_of (el : option element) : option js_value :=
  match el with
  | Some (Elem _ _ [Text v]) => Some v
  | _ => None
  end.

(** The heading, the price and the date shown. *)
Definition shown_title (el : element) : option js_value := text_of (find_tag "h2" el).

Definition shown_amount (el : element) : option js_value :=
  text_of (find_class "expense-item__price" el).

Definition shown_date (el : element) : option js_value :=
  match find_tag "ExpenseDate" el with
  | Some (Elem _ [(_, AValue v)] _) => Some v
  | _ => None
  end.

Definition is_click (i : interaction) : bool :=
  match i with
  | Click => true
  | Rerender _ => false
  end.

(** The props of the last render after the interactions [acts]. *)
Definition latest_props (props : Props) (acts : list interaction) : Props :=
  fold_left (fun p i => match i with Rerender p' => p' | Click => p end) acts props.

Definition interact_all (acts : list interaction) (m : Mounted) : Mounted :=
  fold_left (fun m i => interact i m) acts m.

End ExpenseItem.

(** ** The nil client

    The functions above take every driver call by what it returns.  The
    call [client.Ping] of the initialization block is made on whatever
    [mongo.Connect] returned, and a failed [mongo.Connect] returns the nil
    client with its error; [Ping] is a method that reads its receiver, so
    on the nil client it is a nil pointer dereference: it panics, it does
    not return.  Here [GetMongoClient] is modelled again with that call
    able to panic.  [sync.Once.Do] stores [done] in a deferred call, so the
    guard has fired also when the function panics, and the panic goes on to
    the caller of [GetMongoClient]. *)

Module NilClient.

Inductive outcome (A : Type) :=
| Normal (a : A)
| Panic.

Arguments Normal {A} a.
Arguments Panic {A}.

Section NilClient.

Context {D : Driver}.

(** [err = client.Ping(...); if err != nil { clientInstanceError = err }] *)
Definition Ping_call (client : ClientPtr) (s : State D) : outcome unit * State D :=
  match client with
  | None => (Panic, logged [EvPing None] s)
  | Some _ => (Normal tt, snd (Concurrent.do_ping client s))
  end.

(** The function literal passed to [mongoOnce.Do]: after a panic of [Ping]
    the assignment [clientInstance = client] is not reached. *)
Definition init_block (s : State D) : outcome unit * State D :=
  let '(client, s1) := Concurrent.do_connect s in
  match Ping_call client s1 with
  | (Panic, s2) => (Panic, s2)
  | (Normal _, s2) => (Normal tt, snd (set_clientInstance client s2))
  end.

Definition GetMongoClient (s : State D) : outcome (ClientPtr * error) * State D :=
  if mongoOnce s then (Normal (clientInstance s, clientInstanceError s), s)
  else
    let '(r, s1) := init_block s in
    let s2 := Concurrent.set_done s1 in
    match r with
    | Panic => (Panic, s2)
    | Normal _ => (Normal (clientInstance s2, clientInstanceError s2), s2)
    end.

End NilClient.

End NilClient.

(** A server that cannot be connected to, and one that connects and does
    not answer the ping. *)
Definition connect_fails : MemStore.Store :=
  MemStore.mkStore (Some (DriverError "connect failed")) None
                   None MemStore.unique_id (fun _ _ => []).

Definition ping_fails : MemStore.Store :=
  MemStore.mkStore None (Some (DriverError "ping failed"))
                   None MemStore.unique_id (fun _ _ => []).

(** * Properties *)

(** ** The connection provider *)

Section Provider.

Context {D : Driver}.
Implicit Types s : State D.

Lemma GetMongoClient_fired s :
  mongoOnce s = true ->
  GetMongoClient s = ((clientInstance s, clientInstanceError s), s).
Proof.
  intros H. unfold GetMongoClient, mongoOnce_Do, bind, get_clientInstance,
    get_clientInstanceError, ret.
  rewrite H. reflexivity.
Qed.

Lemma GetMongoClient_first s :
  mongoOnce s = false ->
  GetMongoClient s =
    let '((c, e1), w1) := mongo_Connect D URI (world s) in
    let '(e2, w2) := Client_Ping D c w1 in
    let e := recorded (clientInstanceError s) e1 e2 in
    ((c, e), mkState c e true w2 (trace s ++ [EvConnect URI; EvPing c])).
Proof.
  intros H. unfold GetMongoClient, mongoOnce_Do, init_block, bind, log, call,
    get_clientInstance, get_clientInstanceError, set_clientInstance,
    set_clientInstanceError, ret.
  rewrite H. simpl.
  destruct (mongo_Connect D URI (world s)) as [[c e1] w1].
  destruct e1 as [x1|]; simpl;
    destruct (Client_Ping D c w1) as [e2 w2];
    destruct e2 as [x2|]; simpl; rewrite <- app_assoc; reflexivity.
Qed.

Lemma GetMongoClient_sets_guard s : mongoOnce (snd (GetMongoClient s)) = true.
Proof.
  destruct (mongoOnce s) eqn:H.
  - rewrite GetMongoClient_fired by assumption. exact H.
  - rewrite GetMongoClient_first by assumption.
    destruct (mongo_Connect D URI (world s)) as [[c e1] w1].
    destruct (Client_Ping D c w1) as [e2 w2]. reflexivity.
Qed.

Lemma GetMongoClient_returns_variables s :
  fst (GetMongoClient s) =
    (clientInstance (snd (GetMongoClient s)), clientInstanceError (snd (GetMongoClient s))).
Proof.
  destruct (mongoOnce s) eqn:H.
  - rewrite GetMongoClient_fired by assumption. reflexivity.
  - rewrite GetMongoClient_first by assumption.
    destruct (mongo_Connect D URI (world s)) as [[c e1] w1].
    destruct (Client_Ping D c w1) as [e2 w2]. reflexivity.
Qed.

Lemma document_ops_app tr tr' :
  document_ops (tr ++ tr') = document_ops tr ++ document_ops tr'.
Proof. apply List.filter_app. Qed.

Lemma init_events_app tr tr' :
  init_events (tr ++ tr') = init_events tr ++ init_events tr'.
Proof. apply List.filter_app. Qed.

(** Acquiring the connection makes no call on a collection or a cursor. *)
Lemma GetMongoClient_no_document_op s :
  document_ops (trace (snd (GetMongoClient s))) = document_ops (trace s).
Proof.
  destruct (mongoOnce s) eqn:H.
  - rewrite GetMongoClient_fired by assumption. reflexivity.
  - rewrite GetMongoClient_first by assumption.
    destruct (mongo_Connect D URI (world s)) as [[c e1] w1].
    destruct (Client_Ping D c w1) as [e2 w2]. simpl.
    rewrite document_ops_app. simpl. apply app_nil_r.
Qed.

(** A failure of either step leaves an error that is not nil, and the
    error of the connect step is the one left when [Ping] succeeds. *)
Lemma recorded_failure prev connectErr pingErr :
  (connectErr <> None \/ pingErr <> None -> recorded prev connectErr pingErr <> None) /\
  (pingErr = None -> connectErr <> None -> recorded prev connectErr pingErr = connectErr).
Proof.
  unfold recorded. destruct pingErr as [x2|], connectErr as [x1|]; split;
    intros; try tauto; try discriminate; intuition congruence.
Qed.

End Provider.

(** ** The store operations, step by step *)

Section Store.

Context {D : Driver}.
Implicit Types s : State D.

Ltac acquire H :=
  unfold bind at 1; rewrite H; cbn beta iota.

Ltac steps :=
  unfold bind, log, call, ret; cbn beta iota zeta delta [fst snd world trace
    clientInstance clientInstanceError mongoOnce].

(** Each operation after a successful acquisition: one driver call. *)
Lemma CreateExpense_acquired expense s c s1 :
  GetMongoClient s = ((c, None), s1) ->
  CreateExpense expense s =
    let '(err, w) := Collection_InsertOne D c DBName ExpenseCollections
                       (IExpense expense) (world s1) in
    (err, in_world w (logged [EvInsertOne c DBName ExpenseCollections (IExpense expense)] s1)).
Proof.
  intros H. unfold CreateExpense. acquire H. steps.
  destruct (Collection_InsertOne D c DBName ExpenseCollections (IExpense expense) (world s1))
    as [[x|] w]; reflexivity.
Qed.

Lemma CreateManyExpenses_acquired lst s c s1 :
  GetMongoClient s = ((c, None), s1) ->
  CreateManyExpenses lst s =
    let '(err, w) := Collection_InsertMany D c DBName ExpenseCollections
                       (to_insertable lst) (world s1) in
    (err, in_world w (logged [EvInsertMany c DBName ExpenseCollections (to_insertable lst)] s1)).
Proof.
  intros H. unfold CreateManyExpenses. acquire H. steps.
  destruct (Collection_InsertMany D c DBName ExpenseCollections (to_insertable lst) (world s1))
    as [[x|] w]; reflexivity.
Qed.

Lemma GetExpensesByID_acquired id s c s1 :
  GetMongoClient s = ((c, None), s1) ->
  GetExpensesByID id s =
    let '(sr, w) := Collection_FindOne D c DBName ExpenseCollections
                      (filter_by_expenseID id) (world s1) in
    (SingleResult_Decode sr Expense_zero,
     in_world w (logged [EvFindOne c DBName ExpenseCollections (filter_by_expenseID id)] s1)).
Proof.
  intros H. unfold GetExpensesByID. acquire H. steps.
  destruct (Collection_FindOne D c DBName ExpenseCollections (filter_by_expenseID id) (world s1))
    as [sr w].
  destruct (SingleResult_Decode sr Expense_zero) as [r [x|]]; reflexivity.
Qed.

Lemma DeleteExpense_acquired code s c s1 :
  GetMongoClient s = ((c, None), s1) ->
  DeleteExpense code s =
    let '(err, w) := Collection_DeleteOne D c DBName ExpenseCollections
                       (filter_by_expenseID code) (world s1) in
    (err, in_world w (logged [EvDeleteOne c DBName ExpenseCollections (filter_by_expenseID code)] s1)).
Proof.
  intros H. unfold DeleteExpense. acquire H. steps.
  destruct (Collection_DeleteOne D c DBName ExpenseCollections (filter_by_expenseID code) (world s1))
    as [[x|] w]; reflexivity.
Qed.

Lemma DeleteAll_acquired s c s1 :
  GetMongoClient s = ((c, None), s1) ->
  DeleteAll s =
    let '(err, w) := Collection_DeleteMany D c DBName ExpenseCollections
                       filter_all (world s1) in
    (err, in_world w (logged [EvDeleteMany c DBName ExpenseCollections filter_all] s1)).
Proof.
  intros H. unfold DeleteAll. acquire H. steps.
  destruct (Collection_DeleteMany D c DBName ExpenseCollections filter_all (world s1))
    as [[x|] w]; reflexivity.
Qed.

Lemma logged_logged evs evs' s : logged evs' (logged evs s) = logged (evs ++ evs') s.
Proof. unfold logged. simpl. rewrite <- app_assoc. reflexivity. Qed.

Lemma logged_nil s : logged [] s = s.
Proof. destruct s. unfold logged. simpl. rewrite app_nil_r. reflexivity. Qed.

(** The loop of [GetAllIssues] over documents that decode. *)
Lemma iterate_decoded good rest issues s :
  Forall (fun d => snd (decode_doc d) = None) good ->
  iterate (good ++ rest) issues s =
    iterate rest (issues ++ map (fun d => fst (decode_doc d)) good)
            (logged (flat_map (fun _ => [EvCursorNext; EvCursorDecode]) good) s).
Proof.
  intros Hgood. revert issues s.
  induction Hgood as [|d good Hd _ IH]; intros issues s.
  - simpl. rewrite app_nil_r, logged_nil. reflexivity.
  - simpl. unfold bind at 1 2. unfold log at 1 2. cbn beta iota.
    unfold decode_doc in Hd.
    destruct (bson_Unmarshal d Expense_zero) as [t err] eqn:Hdec.
    simpl in Hd. subst err. rewrite IH.
    unfold decode_doc at 2. rewrite Hdec. simpl fst.
    rewrite <- app_assoc. simpl.
    f_equal. unfold logged. simpl. rewrite <- !app_assoc. reflexivity.
Qed.

(** The loop at a document that does not decode. *)
Lemma iterate_undecodable bad rest issues s err :
  snd (decode_doc bad) = Some err ->
  iterate (bad :: rest) issues s =
    (inl (issues, Some err), logged [EvCursorNext; EvCursorDecode] s).
Proof.
  intros Hbad. simpl. unfold bind at 1 2. unfold log at 1 2. cbn beta iota.
  unfold decode_doc in Hbad.
  destruct (bson_Unmarshal bad Expense_zero) as [t e]. simpl in Hbad. subst e.
  unfold ret, logged. simpl. rewrite <- app_assoc. reflexivity.
Qed.

(** The loop at the exhausted cursor. *)
Lemma iterate_exhausted issues s :
  iterate [] issues s = (inr issues, logged [EvCursorNext] s).
Proof. reflexivity. Qed.

(** The loop over a cursor whose documents all decode. *)
Lemma iterate_all_decoded cur issues s :
  Forall (fun d => snd (decode_doc d) = None) cur ->
  iterate cur issues s =
    (inr (issues ++ map (fun d => fst (decode_doc d)) cur),
     logged [EvCursorNext]
       (logged (flat_map (fun _ => [EvCursorNext; EvCursorDecode]) cur) s)).
Proof.
  intros H. pose proof (iterate_decoded cur [] issues s H) as Hit.
  rewrite app_nil_r in Hit. rewrite Hit. apply iterate_exhausted.
Qed.

End Store.

Section StoreFacts.

Context {D : Driver}.
Implicit Types s : State D.

Lemma GetAllIssues_acquired s c s1 cur findError w :
  GetMongoClient s = ((c, None), s1) ->
  Collection_Find D c DBName ExpenseCollections filter_all (world s1) = ((cur, findError), w) ->
  GetAllIssues s =
    let s2 := in_world w (logged [EvFind c DBName ExpenseCollections filter_all] s1) in
    match findError with
    | Some _ => (([], findError), s2)
    | None =>
        match iterate cur [] s2 with
        | (inl early, s3) => (early, s3)
        | (inr issues, s3) =>
            ((issues, if Nat.eqb (length issues) 0 then Some ErrNoDocuments else None),
             logged [EvCursorClose] s3)
        end
    end.
Proof.
  intros H Hfind. unfold GetAllIssues. unfold bind at 1. rewrite H. cbn beta iota.
  unfold bind at 1. unfold log at 1. cbn beta iota.
  unfold bind at 1. unfold call at 1. cbn beta iota delta [world]. simpl world.
  rewrite Hfind. cbn beta iota.
  destruct findError as [x|]; [reflexivity|].
  unfold bind at 1. unfold in_world, logged. simpl.
  match goal with |- context [iterate cur [] ?st] => destruct (iterate cur [] st) as [[early|issues] s3] end.
  - reflexivity.
  - unfold bind, log, ret. simpl. destruct (Nat.eqb (length issues) 0); reflexivity.
Qed.

(** An operation whose acquisition fails stops there. *)
Lemma failed_acquisition s c e s1 :
  GetMongoClient s = ((c, Some e), s1) ->
  (forall expense, CreateExpense expense s = (Some e, s1)) /\
  (forall lst, CreateManyExpenses lst s = (Some e, s1)) /\
  (forall id, GetExpensesByID id s = ((Expense_zero, Some e), s1)) /\
  GetAllIssues s = (([], Some e), s1) /\
  (forall code, DeleteExpense code s = (Some e, s1)) /\
  DeleteAll s = (Some e, s1).
Proof.
  intros H.
  unfold CreateExpense, CreateManyExpenses, GetExpensesByID, GetAllIssues,
    DeleteExpense, DeleteAll.
  repeat split; intros; unfold bind at 1; rewrite H; reflexivity.
Qed.

(** The loop only adds cursor reads to the trace. *)
Lemma iterate_frame cur issues s :
  exists evs,
    snd (iterate cur issues s) = logged evs s /\
    init_events evs = [] /\ closes evs = 0.
Proof.
  revert issues s. induction cur as [|d cur IH]; intros issues s.
  - exists [EvCursorNext]. repeat split.
  - simpl. unfold bind at 1 2. unfold log at 1 2. cbn beta iota.
    destruct (bson_Unmarshal d Expense_zero) as [t [x|]].
    + exists [EvCursorNext; EvCursorDecode]. repeat split.
      unfold ret, logged. simpl. rewrite <- app_assoc. reflexivity.
    + match goal with |- context [iterate cur ?i ?st] =>
        destruct (IH i st) as (evs & Hs & Hi & Hc) end.
      exists ([EvCursorNext; EvCursorDecode] ++ evs). repeat split.
      * rewrite Hs. unfold logged. simpl. rewrite <- !app_assoc. reflexivity.
      * exact Hi.
      * exact Hc.
Qed.

Lemma same_provider_refl s : same_provider s s.
Proof. repeat split. Qed.

Lemma same_provider_trans s1 s2 s3 :
  same_provider s1 s2 -> same_provider s2 s3 -> same_provider s1 s3.
Proof.
  intros (A1 & A2 & A3 & A4) (B1 & B2 & B3 & B4).
  repeat split; congruence.
Qed.

Lemma same_provider_logged evs w s :
  init_events evs = [] -> same_provider s (in_world w (logged evs s)).
Proof.
  intros H. repeat split. simpl. rewrite init_events_app, H. apply app_nil_r.
Qed.

Lemma same_provider_then evs s s' :
  same_provider s s' -> init_events evs = [] -> same_provider s (logged evs s').
Proof.
  intros (A1 & A2 & A3 & A4) H. repeat split; simpl; try assumption.
  rewrite init_events_app, H, app_nil_r. exact A4.
Qed.

(** Once the guard has fired, no operation touches the package-level
    variables or calls [mongo.Connect] or [Ping]. *)
Lemma exec_keeps_provider o s :
  mongoOnce s = true -> same_provider s (exec o s).
Proof.
  intros Hfired.
  pose proof (GetMongoClient_fired s Hfired) as Hget.
  destruct (clientInstanceError s) as [e|] eqn:He.
  - destruct (failed_acquisition s _ e s Hget) as (H1 & H2 & H3 & H4 & H5 & H6).
    destruct o; simpl;
      rewrite ?Hget, ?H1, ?H2, ?H3, ?H4, ?H5, ?H6; apply same_provider_refl.
  - destruct o; simpl.
    + rewrite Hget. apply same_provider_refl.
    + rewrite (CreateExpense_acquired _ _ _ _ Hget).
      destruct (Collection_InsertOne D _ _ _ _ _) as [err w].
      apply same_provider_logged. reflexivity.
    + rewrite (CreateManyExpenses_acquired _ _ _ _ Hget).
      destruct (Collection_InsertMany D _ _ _ _ _) as [err w].
      apply same_provider_logged. reflexivity.
    + rewrite (GetExpensesByID_acquired _ _ _ _ Hget).
      destruct (Collection_FindOne D _ _ _ _ _) as [sr w].
      apply same_provider_logged. reflexivity.
    + destruct (Collection_Find D (clientInstance s) DBName ExpenseCollections
                  filter_all (world s)) as [[cur ferr] w] eqn:Hfind.
      rewrite (GetAllIssues_acquired _ _ _ _ _ _ Hget Hfind). cbn zeta.
      destruct ferr as [x|].
      * apply same_provider_logged. reflexivity.
      * match goal with |- context [iterate cur [] ?st] =>
          destruct (iterate_frame cur [] st) as (evs & Hs & Hi & _);
          destruct (iterate cur [] st) as [[early|issues] s3] end;
        cbn [snd] in Hs; subst s3; cbn [snd].
        -- apply same_provider_then; [|exact Hi].
           apply same_provider_logged. reflexivity.
        -- apply same_provider_then; [|reflexivity].
           apply same_provider_then; [|exact Hi].
           apply same_provider_logged. reflexivity.
    + rewrite (DeleteExpense_acquired _ _ _ _ Hget).
      destruct (Collection_DeleteOne D _ _ _ _ _) as [err w].
      apply same_provider_logged. reflexivity.
    + rewrite (DeleteAll_acquired _ _ _ Hget).
      destruct (Collection_DeleteMany D _ _ _ _ _) as [err w].
      apply same_provider_logged. reflexivity.
Qed.

Lemma exec_all_keeps_provider ops s :
  mongoOnce s = true -> same_provider s (exec_all ops s).
Proof.
  revert s. induction ops as [|o ops IH]; intros s Hfired.
  - apply same_provider_refl.
  - simpl. pose proof (exec_keeps_provider o s Hfired) as Ho.
    eapply same_provider_trans; [exact Ho|].
    apply IH. destruct Ho as (_ & _ & Hm & _). congruence.
Qed.

End StoreFacts.

(** ** The claims about the generic program *)

Section Claims.

Context {D : Driver}.
Implicit Types s : State D.

(** C2. Once the first [GetMongoClient] call has run (the guard has
    fired), whatever operations follow, every later [GetMongoClient] call
    returns the handle and the error of the first call, leaves the state as
    it is, and no [mongo.Connect] or [Ping] call is ever added to the
    trace: the first outcome is permanent. *)
Theorem GetMongoClient_outcome_permanent s0 (ops : list Op) :
  let first := GetMongoClient s0 in
  let s := exec_all ops (snd first) in
  GetMongoClient s = (fst first, s) /\
  init_events (trace s) = init_events (trace (snd first)).
Proof.
  cbn zeta.
  pose proof (GetMongoClient_sets_guard s0) as Hfired.
  destruct (exec_all_keeps_provider ops _ Hfired) as (Hc & He & Hm & Hi).
  split; [|exact Hi].
  rewrite GetMongoClient_fired by congruence.
  rewrite Hc, He, GetMongoClient_returns_variables. reflexivity.
Qed.

(** C4. Whenever the acquisition through [GetMongoClient] returns an
    error, each of the six store operations returns that same error and
    ends in the state the acquisition alone leaves: no insert, find or
    delete is attempted. *)
Theorem acquisition_error_returned_unchanged s c e :
  fst (GetMongoClient s) = (c, Some e) ->
  let s1 := snd (GetMongoClient s) in
  (forall expense, CreateExpense expense s = (Some e, s1)) /\
  (forall lst, CreateManyExpenses lst s = (Some e, s1)) /\
  (forall id, GetExpensesByID id s = ((Expense_zero, Some e), s1)) /\
  GetAllIssues s = (([], Some e), s1) /\
  (forall code, DeleteExpense code s = (Some e, s1)) /\
  DeleteAll s = (Some e, s1) /\
  document_ops (trace s1) = document_ops (trace s).
Proof.
  intros H. cbn zeta.
  assert (Hget : GetMongoClient s = ((c, Some e), snd (GetMongoClient s))).
  { rewrite <- H. apply surjective_pairing. }
  destruct (failed_acquisition s c e _ Hget) as (H1 & H2 & H3 & H4 & H5 & H6).
  repeat split; try assumption.
  apply GetMongoClient_no_document_op.
Qed.

Lemma range_assign_spec lst : forall pre,
  range_assign (length pre) lst (pre ++ replicate (length lst) INil) =
  pre ++ map IExpense lst.
Proof.
  induction lst as [|v lst IH]; intros pre.
  - reflexivity.
  - cbn [range_assign length replicate map].
    replace (<[length pre := IExpense v]> (pre ++ INil :: replicate (length lst) INil))
      with ((pre ++ [IExpense v]) ++ replicate (length lst) INil).
    + replace (S (length pre)) with (length (pre ++ [IExpense v])).
      * rewrite IH, <- app_assoc. reflexivity.
      * rewrite length_app. simpl. lia.
    + rewrite <- app_assoc.
      pose proof (insert_app_r pre (INil :: replicate (length lst) INil) 0 (IExpense v)) as Hins.
      rewrite Nat.add_0_r in Hins. rewrite Hins. reflexivity.
Qed.

Lemma to_insertable_map lst : to_insertable lst = map IExpense lst.
Proof. apply (range_assign_spec lst []). Qed.


End Claims.

Section ReadAll.

Context {D : Driver}.
Implicit Types s : State D.

Lemma closes_app tr tr' : closes (tr ++ tr') = closes tr + closes tr'.
Proof. unfold closes. rewrite List.filter_app, length_app. reflexivity. Qed.

Lemma closes_document_ops tr : closes (document_ops tr) = closes tr.
Proof.
  induction tr as [|ev tr IH]; [reflexivity|].
  destruct ev; simpl; unfold closes in *; simpl; rewrite ?IH; reflexivity.
Qed.

Lemma GetMongoClient_closes s c e s1 :
  GetMongoClient s = ((c, e), s1) -> closes (trace s1) = closes (trace s).
Proof.
  intros H. rewrite <- (closes_document_ops (trace s1)), <- (closes_document_ops (trace s)).
  replace s1 with (snd (GetMongoClient s)) by (rewrite H; reflexivity).
  rewrite GetMongoClient_no_document_op. reflexivity.
Qed.

Lemma closes_reads (l : list bsonD) :
  closes (flat_map (fun _ => [EvCursorNext; EvCursorDecode]) l) = 0.
Proof. induction l as [|d l IH]; [reflexivity|exact IH]. Qed.

(** C10. When a document fails to decode during the iteration of
    [GetAllIssues], the function returns at once the decode error with the
    Expenses decoded before it, and no cursor is closed on that path; when
    every document decodes, the iteration runs to exhaustion, all of them
    are returned and the cursor is closed, once; when [Find] fails there is
    no cursor to close. *)
Theorem GetAllIssues_decode_error_returns_prefix_unclosed s c s1 w :
  GetMongoClient s = ((c, None), s1) ->
  (forall good bad rest err,
      Collection_Find D c DBName ExpenseCollections filter_all (world s1)
        = ((good ++ bad :: rest, None), w) ->
      Forall (fun d => snd (decode_doc d) = None) good ->
      snd (decode_doc bad) = Some err ->
      fst (GetAllIssues s) = (map (fun d => fst (decode_doc d)) good, Some err) /\
      trace (snd (GetAllIssues s)) =
        trace s1 ++ EvFind c DBName ExpenseCollections filter_all ::
          flat_map (fun _ => [EvCursorNext; EvCursorDecode]) (good ++ [bad]) /\
      closes (trace (snd (GetAllIssues s))) = closes (trace s)) /\
  (forall cur,
      Collection_Find D c DBName ExpenseCollections filter_all (world s1)
        = ((cur, None), w) ->
      Forall (fun d => snd (decode_doc d) = None) cur ->
      fst (fst (GetAllIssues s)) = map (fun d => fst (decode_doc d)) cur /\
      closes (trace (snd (GetAllIssues s))) = S (closes (trace s))) /\
  (forall cur e,
      Collection_Find D c DBName ExpenseCollections filter_all (world s1)
        = ((cur, Some e), w) ->
      fst (GetAllIssues s) = ([], Some e) /\
      closes (trace (snd (GetAllIssues s))) = closes (trace s)).
Proof.
  intros Hget. pose proof (GetMongoClient_closes _ _ _ _ Hget) as Hc.
  split; [|split].
  - intros good bad rest err Hfind Hgood Hbad.
    rewrite (GetAllIssues_acquired _ _ _ _ _ _ Hget Hfind). cbn zeta.
    rewrite (iterate_decoded good (bad :: rest) [] _ Hgood).
    rewrite (iterate_undecodable bad rest _ _ err Hbad).
    split; [reflexivity|].
    cbn [snd]. unfold logged, in_world. cbn [trace]. split.
    + rewrite flat_map_app, <- !app_assoc. reflexivity.
    + repeat rewrite closes_app. rewrite closes_reads, Hc. unfold closes. simpl. lia.
  - intros cur Hfind Hgood.
    rewrite (GetAllIssues_acquired _ _ _ _ _ _ Hget Hfind). cbn zeta.
    rewrite (iterate_all_decoded cur [] _ Hgood).
    split; [reflexivity|].
    cbn [snd]. unfold logged, in_world. cbn [trace].
    repeat rewrite closes_app. rewrite closes_reads, Hc. unfold closes. simpl. lia.
  - intros cur e Hfind.
    rewrite (GetAllIssues_acquired _ _ _ _ _ _ Hget Hfind). cbn zeta.
    split; [reflexivity|].
    cbn [snd]. unfold logged, in_world. cbn [trace].
    rewrite closes_app, Hc. unfold closes. simpl. lia.
Qed.

(** The empty cursor with any driver. *)
Lemma GetAllIssues_empty_cursor s c s1 w :
  GetMongoClient s = ((c, None), s1) ->
  Collection_Find D c DBName ExpenseCollections filter_all (world s1) = (([], None), w) ->
  fst (GetAllIssues s) = ([], Some ErrNoDocuments).
Proof.
  intros Hget Hfind.
  rewrite (GetAllIssues_acquired _ _ _ _ _ _ Hget Hfind). reflexivity.
Qed.

End ReadAll.

(** ** The program on the reference store *)

Section OnMemStore.

Import MemStore.

Implicit Types s : MState.

(** The filter of [GetExpensesByID] and [DeleteExpense] selects by exact
    equality of the [expenseID] field. *)
Lemma matches_by_expenseID id d :
  matches (filter_by_expenseID id) d = true <->
  lookup_field "expenseID" d = Some (BString id).
Proof.
  unfold matches, filter_by_expenseID. cbn [forallb fst snd].
  destruct (lookup_field "expenseID" d) as [v|].
  - rewrite andb_true_r, bool_decide_eq_true. split; congruence.
  - rewrite andb_true_r, bool_decide_eq_true. split; discriminate.
Qed.

Lemma matches_marshalled e : matches (filter_by_expenseID (ExpenseID e)) (bson_Marshal e) = true.
Proof. apply matches_by_expenseID. reflexivity. Qed.

(** Every document is selected by [bson.D{{}}] unless it has a field with
    the empty name; the documents of Expenses have none. *)
Lemma matches_all_marshalled e : matches filter_all (bson_Marshal e) = true.
Proof. reflexivity. Qed.

(** A date that is a whole number of milliseconds is kept by the store. *)
Lemma of_millis_millis (t : Time) :
  (t mod 1000000 = 0)%Z -> of_millis (millis t) = t.
Proof.
  intros H. unfold of_millis, millis. rewrite Z.mul_comm. symmetry.
  apply Z.div_exact; [discriminate|exact H].
Qed.

(** What the store keeps of a date lies less than a millisecond before it. *)
Lemma of_millis_millis_bounds (t : Time) :
  (of_millis (millis t) <= t < of_millis (millis t) + 1000000)%Z.
Proof.
  unfold of_millis, millis.
  pose proof (Z.div_mod t 1000000 ltac:(discriminate)) as Hdm.
  pose proof (Z.mod_pos_bound t 1000000 ltac:(reflexivity)) as Hb. lia.
Qed.

Lemma at_ms_whole e : (Date e mod 1000000 = 0)%Z -> at_ms e = e.
Proof. intros H. destruct e. unfold at_ms. cbn [Date] in *. rewrite of_millis_millis by exact H. reflexivity. Qed.

Lemma decode_marshalled e : decode_doc (bson_Marshal e) = (at_ms e, None).
Proof. destruct e. reflexivity. Qed.


(** Connecting and pinging leave the store as it is. *)
Lemma GetMongoClient_world s : world (snd (GetMongoClient s)) = world s.
Proof.
  destruct (mongoOnce s) eqn:H.
  - rewrite GetMongoClient_fired by assumption. reflexivity.
  - rewrite GetMongoClient_first by assumption. simpl. unfold Connect, Ping.
    destruct (connect_err (world s)); reflexivity.
Qed.

Lemma colls_set_coll db coll docs w : colls (set_coll db coll docs w) db coll = docs.
Proof. simpl. rewrite !String.eqb_refl. reflexivity. Qed.

(** [delete_first] removes the first matching document and nothing else. *)
Lemma delete_first_spec id docs :
  (Forall (fun d => lookup_field "expenseID" d <> Some (BString id)) docs /\
   delete_first (filter_by_expenseID id) docs = docs) \/
  (exists l1 d l2,
      docs = l1 ++ d :: l2 /\
      lookup_field "expenseID" d = Some (BString id) /\
      Forall (fun d => lookup_field "expenseID" d <> Some (BString id)) l1 /\
      delete_first (filter_by_expenseID id) docs = l1 ++ l2).
Proof.
  induction docs as [|d docs IH].
  - left. split; [constructor|reflexivity].
  - cbn [delete_first].
    destruct (matches (filter_by_expenseID id) d) eqn:Hm.
    + right. exists [], d, docs. repeat split; [|constructor].
      apply matches_by_expenseID. exact Hm.
    + assert (Hd : lookup_field "expenseID" d <> Some (BString id)).
      { intros H. apply matches_by_expenseID in H. congruence. }
      destruct IH as [[Hall Heq]|(l1 & x & l2 & Hdocs & Hx & Hl1 & Heq)].
      * left. split; [constructor; assumption|]. rewrite Heq. reflexivity.
      * right. exists (d :: l1), x, l2. repeat split.
        -- rewrite Hdocs. reflexivity.
        -- exact Hx.
        -- constructor; assumption.
        -- rewrite Heq. reflexivity.
Qed.

Lemma delete_first_length filter docs :
  length docs <= S (length (delete_first filter docs)).
Proof.
  induction docs as [|d docs IH]; simpl; [lia|].
  destruct (matches filter d); simpl; lia.
Qed.

End OnMemStore.

Section StoreClaims.

Import MemStore.

(** C5. [GetAllIssues] reports [mongo.ErrNoDocuments], with the empty
    slice, whenever the cursor of a successful [Find] yields no document
    (with any driver), and so on the reference store whenever the
    collection holds no document. *)
Theorem GetAllIssues_empty_is_not_found :
  (forall (D : Driver) (s : State D) c s1 w,
      GetMongoClient s = ((c, None), s1) ->
      Collection_Find D c DBName ExpenseCollections filter_all (world s1) = (([], None), w) ->
      fst (GetAllIssues s) = ([], Some ErrNoDocuments)) /\
  (forall (s : MState) n s1,
      GetMongoClient s = ((Some n, None), s1) ->
      op_err (world s1) = None ->
      expenses (world s1) = [] ->
      fst (GetAllIssues s) = ([], Some ErrNoDocuments)).
Proof.
  split.
  - intros D s c s1 w. apply GetAllIssues_empty_cursor.
  - intros s n s1 Hget Hop Hdocs.
    apply (GetAllIssues_empty_cursor s (Some n) s1 (world s1) Hget).
    cbn [Collection_Find driver]. unfold Find, refused. rewrite Hop.
    unfold expenses in Hdocs. rewrite Hdocs. reflexivity.
Qed.


(** C8. After a successful acquisition and without a transport failure,
    [DeleteExpense code] makes one [DeleteOne] call with the filter
    [expenseID = code] and returns nil; the collection loses the first
    document whose [expenseID] field equals [code] and no other, and when
    no document has that [expenseID] it is unchanged and the result is
    still nil. *)
Theorem DeleteExpense_removes_at_most_one (s : MState) code n s1 :
  GetMongoClient s = ((Some n, None), s1) ->
  op_err (world s1) = None ->
  let docs := expenses (world s1) in
  exists s',
    DeleteExpense code s = (None, s') /\
    trace s' = trace s1 ++
      [EvDeleteOne (Some n) DBName ExpenseCollections [("expenseID", BString code)]] /\
    length docs <= S (length (expenses (world s'))) /\
    ((Forall (fun d => lookup_field "expenseID" d <> Some (BString code)) docs /\
      expenses (world s') = docs) \/
     (exists l1 d l2,
         docs = l1 ++ d :: l2 /\
         lookup_field "expenseID" d = Some (BString code) /\
         Forall (fun d => lookup_field "expenseID" d <> Some (BString code)) l1 /\
         expenses (world s') = l1 ++ l2)).
Proof.
  intros Hget Hop docs.
  rewrite (DeleteExpense_acquired _ _ _ _ Hget).
  cbn [Collection_DeleteOne driver]. unfold DeleteOne, refused. rewrite Hop.
  set (s' := @in_world driver
               (set_coll DBName ExpenseCollections
                  (delete_first (filter_by_expenseID code) docs) (world s1))
               (logged [EvDeleteOne (Some n) DBName ExpenseCollections
                          (filter_by_expenseID code)] s1)).
  assert (Hdocs : expenses (world s') = delete_first (filter_by_expenseID code) docs)
    by reflexivity.
  exists s'. rewrite Hdocs. repeat split.
  - apply delete_first_length.
  - apply delete_first_spec.
Qed.

End StoreClaims.

(** ** Concurrent callers of the provider *)

Section SingleFlight.

Import Concurrent Stages.

Context {D : Driver} (w : World D).

Lemma do_connect_guard (sh : State D) : mongoOnce (snd (do_connect sh)) = mongoOnce sh.
Proof.
  unfold do_connect, bind, log, call, set_clientInstanceError, ret. simpl.
  destruct (mongo_Connect D URI (world sh)) as [[c [x|]] w']; reflexivity.
Qed.

Lemma do_ping_guard c (sh : State D) : mongoOnce (snd (do_ping c sh)) = mongoOnce sh.
Proof.
  unfold do_ping, bind, log, call, set_clientInstanceError, ret. simpl.
  destruct (Client_Ping D c (world sh)) as [[x|] w']; reflexivity.
Qed.

Lemma stage_guards :
  mongoOnce (st0 w) = false /\ mongoOnce (st1 w) = false /\
  mongoOnce (st2 w) = false /\ mongoOnce (st3 w) = false /\
  mongoOnce (st4 w) = true.
Proof.
  assert (H1 : mongoOnce (st1 w) = false) by (unfold st1; rewrite do_connect_guard; reflexivity).
  assert (H2 : mongoOnce (st2 w) = false) by (unfold st2; rewrite do_ping_guard; exact H1).
  repeat split; assumption.
Qed.

Lemma do_connect_st0 : do_connect (st0 w) = (c1 w, st1 w).
Proof. apply surjective_pairing. Qed.

Lemma do_ping_st1 : do_ping (c1 w) (st1 w) = (tt, st2 w).
Proof. unfold st2. destruct (do_ping (c1 w) (st1 w)) as [[] sh]. reflexivity. Qed.

Lemma set_clientInstance_st2 : set_clientInstance (c1 w) (st2 w) = (tt, st3 w).
Proof. reflexivity. Qed.

(** The stages are those of the sequential [GetMongoClient]. *)
Lemma stages_sequential :
  GetMongoClient (initial w) = ((clientInstance (st4 w), clientInstanceError (st4 w)), st4 w).
Proof.
  rewrite GetMongoClient_first by reflexivity.
  unfold st4, st3, st2, st1, c1, st0, set_done, do_ping, do_connect,
    set_clientInstance, set_clientInstanceError, bind, log, call, ret.
  simpl.
  destruct (mongo_Connect D URI w) as [[c [x1|]] w1]; simpl;
    destruct (Client_Ping D c w1) as [[x2|] w2]; reflexivity.
Qed.


(** *** The invariant *)

Lemma Inv_cinit : Inv w (cinit w).
Proof.
  split.
  - intros t. unfold pc_ok. simpl. discriminate.
  - intros _. left. reflexivity.
Qed.

Lemma Inv_fired s : Inv w s -> mongoOnce (shared s) = true -> shared s = st4 w.
Proof.
  intros [Hall Hq] Hflag.
  destruct stage_guards as (G0 & G1 & G2 & G3 & G4).
  assert (Hquiet : quiescent s).
  { unfold quiescent. destruct (mutex s) as [h|] eqn:Hm; [|exact I].
    pose proof (Hall h) as Hh. unfold pc_ok in Hh.
    destruct (pcs s h); cbn [pc_spec in_block] in *; try reflexivity;
      intuition congruence. }
  destruct (Hq Hquiet) as [H|H]; [congruence|exact H].
Qed.

Lemma Inv_fresh s :
  Inv w s -> mongoOnce (shared s) = false -> quiescent s -> shared s = st0 w.
Proof.
  intros [Hall Hq] Hflag Hquiet.
  destruct stage_guards as (G0 & G1 & G2 & G3 & G4).
  destruct (Hq Hquiet) as [H|H]; [exact H|congruence].
Qed.

(** The state after a step of [t]: every other goroutine keeps its
    position. *)
Lemma moved_ok t p' m' sh' s :
  (forall t', t' <> t -> pc_spec w (pcs s t') (mutex s) (shared s) t' ->
              pc_spec w (pcs s t') m' sh' t') ->
  pc_spec w p' m' sh' t ->
  (forall t', pc_ok w s t') ->
  forall t', pc_ok w (mkCState sh' m' (fun t' => if Nat.eqb t' t then p' else pcs s t')) t'.
Proof.
  intros Hothers Hmine Hall t'. unfold pc_ok. simpl.
  destruct (Nat.eqb_spec t' t) as [->|Hne]; [exact Hmine|].
  apply Hothers; [exact Hne|apply Hall].
Qed.

Lemma others_lock t t' p sh :
  t' <> t -> pc_spec w p None sh t' -> pc_spec w p (Some t) sh t'.
Proof. intros Hne. destruct p; simpl; intuition congruence. Qed.

Lemma others_unlock t t' p sh :
  t' <> t -> pc_spec w p (Some t) sh t' -> pc_spec w p None sh t'.
Proof. intros Hne. destruct p; simpl; intuition congruence. Qed.

Lemma others_block t t' p sh sh' :
  t' <> t -> sh <> st4 w -> pc_spec w p (Some t) sh t' -> pc_spec w p (Some t) sh' t'.
Proof. intros Hne Hsh. destruct p; simpl; intuition congruence. Qed.

Lemma stages_differ :
  st0 w <> st4 w /\ st1 w <> st4 w /\ st2 w <> st4 w /\ st3 w <> st4 w.
Proof.
  destruct stage_guards as (G0 & G1 & G2 & G3 & G4).
  repeat split; intros H; rewrite H in *; congruence.
Qed.

Lemma quiescent_moved t p' (s : CState D) :
  in_block (pcs s t) = false -> quiescent (goto t p' s) -> quiescent s.
Proof.
  unfold quiescent, goto. simpl. intros Hp.
  destruct (mutex s) as [h|]; [|trivial].
  destruct (Nat.eqb_spec h t) as [->|Hne]; intros H; assumption.
Qed.

Lemma not_quiescent_in_block t p' sh' (s : CState D) :
  mutex s = Some t -> in_block p' = true ->
  ~ quiescent (@mkCState D sh' (mutex s) (fun t' => if Nat.eqb t' t then p' else pcs s t')).
Proof.
  intros Hm Hp. unfold quiescent. simpl. rewrite Hm, Nat.eqb_refl. congruence.
Qed.

(** Every step keeps the invariant. *)
Lemma step_Inv t s : Inv w s -> Inv w (step t s).
Proof.
  intros HInv. pose proof HInv as [Hall Hq].
  destruct stages_differ as (D0 & D1 & D2 & D3).
  pose proof (Hall t) as Ht. unfold pc_ok in Ht.
  unfold step. destruct (pcs s t) eqn:Hpc; cbn [pc_spec] in Ht.
  - (* AtCall *)
    destruct (mongoOnce (shared s)) eqn:Hflag.
    + split.
      * unfold goto. apply moved_ok; [intros; assumption| |exact Hall].
        split; [exact Ht|apply (Inv_fired s); assumption].
      * intros _. right. apply (Inv_fired s); assumption.
    + split.
      * unfold goto. apply moved_ok; [intros; assumption|exact Ht|exact Hall].
      * intros Hq'. apply Hq. apply (quiescent_moved t AtLock); [rewrite Hpc; reflexivity|exact Hq'].
  - (* AtLock *)
    destruct (mutex s) as [h|] eqn:Hm; [exact HInv|].
    split.
    + unfold goto, with_mutex. cbn [shared mutex pcs].
      apply moved_ok; [|reflexivity|exact Hall].
      intros t' Hne. rewrite Hm. apply others_lock. exact Hne.
    + intros _. apply Hq. unfold quiescent. rewrite Hm. exact I.
  - (* AtCheck *)
    assert (Hquiet : quiescent s).
    { unfold quiescent. rewrite Ht, Hpc. reflexivity. }
    destruct (mongoOnce (shared s)) eqn:Hflag.
    + split.
      * unfold goto. apply moved_ok; [intros; assumption| |exact Hall].
        split; [exact Ht|apply (Inv_fired s); assumption].
      * intros _. right. apply (Inv_fired s); assumption.
    + split.
      * unfold goto. apply moved_ok; [intros; assumption| |exact Hall].
        split; [exact Ht|apply (Inv_fresh s); assumption].
      * intros _. left. apply (Inv_fresh s); assumption.
  - (* AtConnect *)
    destruct Ht as [Hm Hsh]. rewrite Hsh, do_connect_st0.
    unfold goto, with_shared. cbn [shared mutex pcs]. split.
    + apply moved_ok; [|repeat split; exact Hm|exact Hall].
      intros t' Hne. rewrite Hm, Hsh. apply others_block; assumption.
    + intros Hq'. exfalso. revert Hq'. apply not_quiescent_in_block; [exact Hm|reflexivity].
  - (* AtPing *)
    destruct Ht as (Hm & -> & Hsh). rewrite Hsh, do_ping_st1.
    unfold goto, with_shared. cbn [shared mutex pcs]. split.
    + apply moved_ok; [|repeat split; exact Hm|exact Hall].
      intros t' Hne. rewrite Hm, Hsh. apply others_block; assumption.
    + intros Hq'. exfalso. revert Hq'. apply not_quiescent_in_block; [exact Hm|reflexivity].
  - (* AtStore *)
    destruct Ht as (Hm & -> & Hsh). rewrite Hsh, set_clientInstance_st2.
    unfold goto, with_shared. cbn [shared mutex pcs]. split.
    + apply moved_ok; [|repeat split; exact Hm|exact Hall].
      intros t' Hne. rewrite Hm, Hsh. apply others_block; assumption.
    + intros Hq'. exfalso. revert Hq'. apply not_quiescent_in_block; [exact Hm|reflexivity].
  - (* AtSetDone *)
    destruct Ht as [Hm Hsh]. rewrite Hsh.
    unfold goto, with_shared. cbn [shared mutex pcs]. split.
    + apply moved_ok; [|repeat split; exact Hm|exact Hall].
      intros t' Hne. rewrite Hm, Hsh. apply others_block; assumption.
    + intros _. right. reflexivity.
  - (* AtUnlock *)
    destruct Ht as [Hm Hsh].
    unfold goto, with_mutex. cbn [shared mutex pcs]. split.
    + apply moved_ok; [|split; [discriminate|exact Hsh]|exact Hall].
      intros t' Hne. rewrite Hm. apply others_unlock. exact Hne.
    + intros _. right. exact Hsh.
  - (* AtReturn *)
    destruct Ht as [Hm Hsh]. split.
    + unfold goto. apply moved_ok; [intros; assumption| |exact Hall].
      rewrite Hsh. repeat split. exact Hm.
    + intros _. right. exact Hsh.
  - (* Returned *)
    exact HInv.
Qed.

Lemma run_Inv sched s : Inv w s -> Inv w (run sched s).
Proof.
  revert s. induction sched as [|t sched IH]; intros s H; [exact H|].
  simpl. apply IH, step_Inv, H.
Qed.

Lemma reachable_Inv sched : Inv w (run sched (cinit w)).
Proof. apply run_Inv, Inv_cinit. Qed.



(** *** Progress *)









End SingleFlight.

(** ** The statements at concrete inputs *)

Section Instances.

Import MemStore Concurrent.

(** The scenario of [main]: create, read back, delete, read again. *)
Example scenario_create_find_delete :
  let s0 := init_state (healthy []) in
  let '(r1, s1) := CreateExpense main_expense s0 in
  let '(r2, s2) := GetExpensesByID "1d" s1 in
  let '(r3, s3) := DeleteExpense "1d" s2 in
  let '(r4, s4) := GetExpensesByID "1d" s3 in
  r1 = None /\ r2 = (main_expense, None) /\ r3 = None /\
  r4 = (Expense_zero, Some ErrNoDocuments) /\
  init_events (trace s4) = [EvConnect URI; EvPing (Some 1)].
Proof. vm_compute. repeat split. Qed.

Example to_insertable_two :
  @to_insertable [main_expense; second_expense] = [IExpense main_expense; IExpense second_expense].
Proof. reflexivity. Qed.

Example undecodable_matches_every_filter_all :
  matches filter_all undecodable = true /\
  decode_doc undecodable =
    (mkExpense 0%Z "x" "" 0%Z 0%Z, Some (DriverError "cannot decode into a string")).
Proof. split; reflexivity. Qed.

Example read_all_after_bulk_insert :
  let s0 := init_state (healthy []) in
  let '(r1, s1) := CreateManyExpenses [earlier_expense; second_expense] s0 in
  let '(r2, s2) := GetAllIssues s1 in
  let '(r3, s3) := DeleteAll s2 in
  let '(r4, s4) := GetAllIssues s3 in
  r1 = None /\ r2 = ([earlier_expense; at_ms second_expense], None) /\ r3 = None /\
  r4 = ([], Some ErrNoDocuments) /\ closes (trace s4) = 2.
Proof. vm_compute. repeat split. Qed.

Example bulk_insert_of_nothing_is_refused :
  fst (CreateManyExpenses [] (init_state (healthy []))) =
  Some (DriverError "must provide at least one element in input slice").
Proof. reflexivity. Qed.

(** A caller that arrives while another holds the mutex waits. *)
Example second_caller_waits :
  let s := run [0; 0; 1; 1; 1; 1] (cinit (D := MemStore.driver) (healthy [])) in
  pcs s 0 = AtCheck /\ pcs s 1 = AtLock /\ mutex s = Some 0 /\ trace (shared s) = [].
Proof. vm_compute. repeat split. Qed.

Example two_callers_share_the_outcome :
  let s := run two_callers (cinit (D := MemStore.driver) (healthy [])) in
  pcs s 0 = Returned (Some 1) None /\ pcs s 1 = Returned (Some 1) None /\
  trace (shared s) = [EvConnect URI; EvPing (Some 1)].
Proof. vm_compute. repeat split. Qed.




Lemma acquisition_error_returned_unchanged_witness :
  let s := init_state ping_fails in
  let s1 := snd (GetMongoClient s) in
  (forall expense, CreateExpense expense s = (Some (DriverError "ping failed"), s1)) /\
  (forall lst, CreateManyExpenses lst s = (Some (DriverError "ping failed"), s1)) /\
  (forall id, GetExpensesByID id s = ((Expense_zero, Some (DriverError "ping failed")), s1)) /\
  GetAllIssues s = (([], Some (DriverError "ping failed")), s1) /\
  (forall code, DeleteExpense code s = (Some (DriverError "ping failed"), s1)) /\
  DeleteAll s = (Some (DriverError "ping failed"), s1) /\
  document_ops (trace s1) = document_ops (trace s).
Proof.
  apply (acquisition_error_returned_unchanged (init_state ping_fails) (Some 1)
           (DriverError "ping failed")).
  reflexivity.
Defined.


Lemma GetAllIssues_decode_error_returns_prefix_unclosed_witness :
  let s := init_state (healthy [bson_Marshal main_expense; undecodable;
                                bson_Marshal second_expense]) in
  fst (GetAllIssues s) = ([main_expense], Some (DriverError "cannot decode into a string")) /\
  trace (snd (GetAllIssues s)) =
    trace (snd (GetMongoClient s)) ++ EvFind (Some 1) DBName ExpenseCollections filter_all ::
      [EvCursorNext; EvCursorDecode; EvCursorNext; EvCursorDecode] /\
  closes (trace (snd (GetAllIssues s))) = closes (trace s).
Proof.
  cbn zeta.
  apply (proj1 (GetAllIssues_decode_error_returns_prefix_unclosed
                  (init_state (healthy [bson_Marshal main_expense; undecodable;
                                        bson_Marshal second_expense]))
                  (Some 1) _
                  (healthy [bson_Marshal main_expense; undecodable;
                            bson_Marshal second_expense]) eq_refl)
           [bson_Marshal main_expense] undecodable [bson_Marshal second_expense]
           (DriverError "cannot decode into a string")).
  - reflexivity.
  - repeat constructor.
  - reflexivity.
Defined.

Lemma GetAllIssues_empty_is_not_found_witness :
  fst (GetAllIssues (init_state (healthy []))) = ([], Some ErrNoDocuments).
Proof.
  apply (proj2 GetAllIssues_empty_is_not_found (init_state (healthy [])) 1
           (snd (GetMongoClient (init_state (healthy []))))); reflexivity.
Defined.

Lemma DeleteExpense_removes_at_most_one_witness :
  let s := init_state (healthy [bson_Marshal earlier_expense; bson_Marshal main_expense]) in
  exists s',
    DeleteExpense "1d" s = (None, s') /\
    expenses (world s') = [bson_Marshal main_expense].
Proof.
  cbn zeta.
  destruct (DeleteExpense_removes_at_most_one
              (init_state (healthy [bson_Marshal earlier_expense; bson_Marshal main_expense]))
              "1d" 1 _ eq_refl eq_refl) as (s' & Hdel & _ & _ & _).
  exists s'. split; [exact Hdel|].
  injection Hdel as <-. reflexivity.
Defined.

End Instances.

(** * Further properties of the program *)

(** ** Operations as a whole, with any driver *)

Section Whole.

Context {D : Driver}.
Implicit Types s : State D.

Lemma in_world_same s : in_world (world s) s = s.
Proof. destruct s. reflexivity. Qed.

Lemma cursor_events_only evs c :
  forallb is_cursor_event evs = true ->
  init_events evs = [] /\
  List.filter is_collection_call evs = [] /\
  forallb (on_expense_collection c) evs = true /\
  forallb (fun ev => is_cursor_event ev || is_collection_call ev) evs = true.
Proof.
  induction evs as [|ev evs IH]; intros H; [repeat split|].
  cbn [forallb] in H. apply andb_true_iff in H as [Hev Hevs].
  destruct (IH Hevs) as (I1 & I2 & I3 & I4).
  destruct ev; try discriminate; cbn; rewrite ?I3, ?I4; repeat split; assumption.
Qed.

(** The loop of [GetAllIssues] makes calls on the cursor only. *)
Lemma iterate_cursor_events cur issues s :
  exists evs,
    snd (iterate cur issues s) = logged evs s /\ forallb is_cursor_event evs = true.
Proof.
  revert issues s. induction cur as [|d cur IH]; intros issues s.
  - exists [EvCursorNext]. split; reflexivity.
  - simpl. unfold bind at 1 2. unfold log at 1 2. cbn beta iota.
    destruct (bson_Unmarshal d Expense_zero) as [t [x|]].
    + exists [EvCursorNext; EvCursorDecode]. split; [|reflexivity].
      unfold ret, logged. simpl. rewrite <- app_assoc. reflexivity.
    + match goal with |- context [iterate cur ?i ?st] =>
        destruct (IH i st) as (evs & Hs & He) end.
      exists ([EvCursorNext; EvCursorDecode] ++ evs). split; [|exact He].
      rewrite Hs. unfold logged. simpl. rewrite <- !app_assoc. reflexivity.
Qed.

Lemma same_client (c : ClientPtr) : bool_decide (c = c) = true.
Proof. apply bool_decide_eq_true_2. reflexivity. Qed.

(** What one operation adds to the state its acquisition leaves. *)
Lemma exec_shape o s :
  exists evs w',
    exec o s = in_world w' (logged evs (snd (GetMongoClient s))) /\
    forallb (fun ev => is_cursor_event ev || is_collection_call ev) evs = true /\
    forallb (on_expense_collection (fst (fst (GetMongoClient s)))) evs = true /\
    length (List.filter is_collection_call evs) <= 1 /\
    init_events evs = [] /\
    (snd (fst (GetMongoClient s)) <> None ->
     evs = [] /\ w' = world (snd (GetMongoClient s))).
Proof.
  destruct (GetMongoClient s) as [[c err] s1] eqn:Hget. cbn [fst snd].
  assert (Hnone : exists evs w',
             s1 = in_world w' (logged evs s1) /\
             forallb (fun ev => is_cursor_event ev || is_collection_call ev) evs = true /\
             forallb (on_expense_collection c) evs = true /\
             length (List.filter is_collection_call evs) <= 1 /\
             init_events evs = [] /\
             (err <> None -> evs = [] /\ w' = world s1)).
  { exists [], (world s1). rewrite logged_nil, in_world_same. repeat split. simpl. lia. }
  destruct err as [e|].
  - destruct (failed_acquisition s c e s1 Hget) as (H1 & H2 & H3 & H4 & H5 & H6).
    destruct o; simpl; rewrite ?Hget, ?H1, ?H2, ?H3, ?H4, ?H5, ?H6; exact Hnone.
  - pose proof (same_client c) as Hhere.
    destruct o; simpl.
    + rewrite Hget. exact Hnone.
    + rewrite (CreateExpense_acquired _ _ _ _ Hget).
      destruct (Collection_InsertOne D _ _ _ _ _) as [err w].
      eexists _, w. split; [reflexivity|]. cbn. rewrite Hhere. cbn.
      repeat split; try lia; congruence.
    + rewrite (CreateManyExpenses_acquired _ _ _ _ Hget).
      destruct (Collection_InsertMany D _ _ _ _ _) as [err w].
      eexists _, w. split; [reflexivity|]. cbn. rewrite Hhere. cbn.
      repeat split; try lia; congruence.
    + rewrite (GetExpensesByID_acquired _ _ _ _ Hget).
      destruct (Collection_FindOne D _ _ _ _ _) as [sr w].
      eexists _, w. split; [reflexivity|]. cbn. rewrite Hhere. cbn.
      repeat split; try lia; congruence.
    + destruct (Collection_Find D c DBName ExpenseCollections filter_all (world s1))
        as [[cur ferr] w] eqn:Hfind.
      rewrite (GetAllIssues_acquired _ _ _ _ _ _ Hget Hfind). cbn zeta.
      destruct ferr as [x|].
      * eexists _, w. split; [reflexivity|]. cbn. rewrite Hhere. cbn.
        repeat split; try lia; congruence.
      * match goal with |- context [iterate cur [] ?st] =>
          destruct (iterate_cursor_events cur [] st) as (evs & Hs & He);
          destruct (iterate cur [] st) as [[early|issues] s3] end;
        cbn [snd] in Hs; subst s3; cbn [snd];
        destruct (cursor_events_only evs c He) as (E1 & E2 & E3 & E4).
        -- exists (EvFind c DBName ExpenseCollections filter_all :: evs), w.
           split; [unfold logged, in_world; simpl; rewrite <- app_assoc; reflexivity|].
           cbn. rewrite Hhere, E2, E3, E4. cbn. repeat split; try (simpl; lia); try assumption; congruence.
        -- exists (EvFind c DBName ExpenseCollections filter_all :: evs ++ [EvCursorClose]), w.
           split; [unfold logged, in_world; simpl; rewrite <- !app_assoc; reflexivity|].
           cbn. rewrite Hhere, !forallb_app, List.filter_app, init_events_app, E1, E2, E3, E4. cbn.
           repeat split; try (simpl; lia); congruence.
    + rewrite (DeleteExpense_acquired _ _ _ _ Hget).
      destruct (Collection_DeleteOne D _ _ _ _ _) as [err w].
      eexists _, w. split; [reflexivity|]. cbn. rewrite Hhere. cbn.
      repeat split; try lia; congruence.
    + rewrite (DeleteAll_acquired _ _ _ Hget).
      destruct (Collection_DeleteMany D _ _ _ _ _) as [err w].
      eexists _, w. split; [reflexivity|]. cbn. rewrite Hhere. cbn.
      repeat split; try lia; congruence.
Qed.

End Whole.

Section WholeProperties.

Context {D : Driver}.
Implicit Types s : State D.

(** X1. Every exported operation, from any state, adds to the trace of its
    acquisition at most one call on a collection, made with the client the
    acquisition returned on the collection [expense] of the database
    [expenses], and besides it only calls on the cursor; after a failed
    acquisition it adds nothing. *)
Theorem operation_calls_expense_collection_once (o : Op) s :
  exists evs,
    trace (exec o s) = trace (snd (GetMongoClient s)) ++ evs /\
    length (List.filter is_collection_call evs) <= 1 /\
    forallb (on_expense_collection (fst (fst (GetMongoClient s)))) evs = true /\
    forallb (fun ev => is_cursor_event ev || is_collection_call ev) evs = true /\
    (forall e, snd (fst (GetMongoClient s)) = Some e -> evs = []).
Proof.
  destruct (exec_shape o s) as (evs & w' & Hexec & Hkind & Hon & Hone & _ & Hfail).
  exists evs. rewrite Hexec. repeat split; try assumption.
  intros e H. apply Hfail. congruence.
Qed.

Lemma exec_after_acquisition o s : same_provider (snd (GetMongoClient s)) (exec o s).
Proof.
  destruct (exec_shape o s) as (evs & w' & Hexec & _ & _ & _ & Hinit & _).
  rewrite Hexec. apply same_provider_logged. exact Hinit.
Qed.

(** X2. Whatever the first operation of the program is, it connects and pings,
    once, and no later operation does so again: after any non-empty sequence
    of operations from program start the initialization calls in the trace
    are [mongo.Connect] and then [Ping] on the client it returned. *)
Theorem first_operation_initializes_once (w : World D) (o : Op) (ops : list Op) :
  init_events (trace (exec_all (o :: ops) (initial w))) =
  [EvConnect URI; EvPing (fst (fst (mongo_Connect D URI w)))].
Proof.
  cbn [exec_all fold_left].
  destruct (exec_after_acquisition o (initial w)) as (_ & _ & Hm & Hi).
  assert (Hfired : mongoOnce (exec o (initial w)) = true).
  { rewrite Hm. apply GetMongoClient_sets_guard. }
  destruct (exec_all_keeps_provider ops _ Hfired) as (_ & _ & _ & Hi').
  unfold exec_all in Hi'. rewrite Hi', Hi.
  rewrite GetMongoClient_first by reflexivity. cbn [world initial].
  destruct (mongo_Connect D URI w) as [[c e1] w1].
  destruct (Client_Ping D c w1) as [e2 w2]. reflexivity.
Qed.

Lemma poisoned_exec s e :
  mongoOnce s = true -> clientInstanceError s = Some e ->
  forall o, exec o s = s /\ result_of o s = Some e.
Proof.
  intros Hfired Herr o.
  pose proof (GetMongoClient_fired s Hfired) as Hget. rewrite Herr in Hget.
  destruct (failed_acquisition s _ e s Hget) as (H1 & H2 & H3 & H4 & H5 & H6).
  destruct o; simpl; rewrite ?Hget, ?H1, ?H2, ?H3, ?H4, ?H5, ?H6; split; reflexivity.
Qed.

(** X3. When the initialization fails, the provider stays failed: every later
    operation of any kind returns the error of the initialization and leaves
    the whole state, the world and the trace included, as it was. *)
Theorem failed_initialization_is_permanent s0 c e (ops : list Op) (o : Op) :
  fst (GetMongoClient s0) = (c, Some e) ->
  let s1 := snd (GetMongoClient s0) in
  exec_all ops s1 = s1 /\ result_of o (exec_all ops s1) = Some e.
Proof.
  intros Hfst. cbn zeta.
  pose proof (GetMongoClient_sets_guard s0) as Hfired.
  pose proof (GetMongoClient_returns_variables s0) as Hvars.
  rewrite Hfst in Hvars. injection Hvars as _ Herr. symmetry in Herr.
  assert (Hall : exec_all ops (snd (GetMongoClient s0)) = snd (GetMongoClient s0)).
  { induction ops as [|o' ops IH]; [reflexivity|].
    cbn [exec_all fold_left].
    rewrite (proj1 (poisoned_exec _ e Hfired Herr o')). exact IH. }
  rewrite Hall. split; [reflexivity|].
  apply (poisoned_exec _ e Hfired Herr o).
Qed.

(** X4. [main] connects and pings, then makes at most the one call
    [DeleteOne] with the filter [expenseID = "1d"], and that only when the
    acquisition succeeded; it makes no other call, whatever the driver
    answers. *)
Theorem main_trace (w : World D) :
  let '((c, err), s1) := GetMongoClient (initial w) in
  trace (snd (main (initial w))) =
    [EvConnect URI; EvPing c] ++
    match err with
    | Some _ => []
    | None => [EvDeleteOne c DBName ExpenseCollections [("expenseID", BString "1d")]]
    end.
Proof.
  destruct (GetMongoClient (initial w)) as [[c err] s1] eqn:Hget.
  assert (Htr : trace s1 = [EvConnect URI; EvPing c]).
  { rewrite GetMongoClient_first in Hget by reflexivity. cbn [world initial] in Hget.
    destruct (mongo_Connect D URI w) as [[c' e1] w1].
    destruct (Client_Ping D c' w1) as [e2 w2].
    injection Hget as <- _ <-. reflexivity. }
  unfold main. unfold bind at 1.
  destruct err as [e|].
  - destruct (failed_acquisition _ c e s1 Hget) as (_ & _ & _ & _ & H5 & _).
    rewrite H5. cbn [ret snd]. rewrite Htr. reflexivity.
  - rewrite (DeleteExpense_acquired _ _ _ _ Hget).
    destruct (Collection_DeleteOne D _ _ _ _ _) as [err w']. cbn [ret snd].
    unfold in_world, logged. cbn [trace]. rewrite Htr. reflexivity.
Qed.

End WholeProperties.

(** ** What the operations do to the outside world *)

Section WorldInvariant.

Context {D : Driver}.
Implicit Types s : State D.

(** After an acquisition, acquiring again gives the same answer in every
    state that differs by later calls only. *)
Lemma reacquire s c err s1 w evs :
  GetMongoClient s = ((c, err), s1) ->
  GetMongoClient (in_world w (logged evs s1)) = ((c, err), in_world w (logged evs s1)).
Proof.
  intros Hget.
  pose proof (GetMongoClient_sets_guard s) as Hfired.
  pose proof (GetMongoClient_returns_variables s) as Hvars.
  rewrite Hget in Hfired, Hvars. cbn [fst snd] in Hfired, Hvars.
  rewrite GetMongoClient_fired by exact Hfired.
  cbn [clientInstance clientInstanceError in_world logged].
  rewrite <- Hvars. reflexivity.
Qed.

Variable R : World D -> World D -> Prop.
Hypothesis R_refl : forall w, R w w.
Hypothesis R_trans : forall w1 w2 w3, R w1 w2 -> R w2 w3 -> R w1 w3.
Hypothesis R_Connect : forall w, R w (snd (mongo_Connect D URI w)).
Hypothesis R_Ping : forall c w, R w (snd (Client_Ping D c w)).
Hypothesis R_InsertOne :
  forall c doc w, R w (snd (Collection_InsertOne D c DBName ExpenseCollections doc w)).
Hypothesis R_InsertMany :
  forall c docs w, R w (snd (Collection_InsertMany D c DBName ExpenseCollections docs w)).
Hypothesis R_FindOne :
  forall c f w, R w (snd (Collection_FindOne D c DBName ExpenseCollections f w)).
Hypothesis R_Find :
  forall c f w, R w (snd (Collection_Find D c DBName ExpenseCollections f w)).
Hypothesis R_DeleteOne :
  forall c f w, R w (snd (Collection_DeleteOne D c DBName ExpenseCollections f w)).
Hypothesis R_DeleteMany :
  forall c f w, R w (snd (Collection_DeleteMany D c DBName ExpenseCollections f w)).

Lemma GetMongoClient_relates s : R (world s) (world (snd (GetMongoClient s))).
Proof.
  destruct (mongoOnce s) eqn:H.
  - rewrite GetMongoClient_fired by assumption. apply R_refl.
  - rewrite GetMongoClient_first by assumption.
    pose proof (R_Connect (world s)) as H1.
    destruct (mongo_Connect D URI (world s)) as [[c e1] w1].
    pose proof (R_Ping c w1) as H2.
    destruct (Client_Ping D c w1) as [e2 w2].
    cbn [snd world] in *. eapply R_trans; eassumption.
Qed.

(** A relation between worlds that every driver call on [expenses.expense]
    keeps is kept by every operation. *)
Lemma exec_relates o s : R (world s) (world (exec o s)).
Proof.
  pose proof (GetMongoClient_relates s) as Hacq.
  destruct (GetMongoClient s) as [[c err] s1] eqn:Hget. cbn [snd] in Hacq.
  destruct err as [e|].
  - destruct (failed_acquisition s c e s1 Hget) as (H1 & H2 & H3 & H4 & H5 & H6).
    destruct o; simpl; rewrite ?Hget, ?H1, ?H2, ?H3, ?H4, ?H5, ?H6; exact Hacq.
  - eapply R_trans; [exact Hacq|].
    destruct o; simpl.
    + rewrite Hget. apply R_refl.
    + rewrite (CreateExpense_acquired _ _ _ _ Hget).
      pose proof (R_InsertOne c (IExpense expense) (world s1)) as H.
      destruct (Collection_InsertOne D _ _ _ _ _) as [err w]. exact H.
    + rewrite (CreateManyExpenses_acquired _ _ _ _ Hget).
      pose proof (R_InsertMany c (to_insertable lst) (world s1)) as H.
      destruct (Collection_InsertMany D _ _ _ _ _) as [err w]. exact H.
    + rewrite (GetExpensesByID_acquired _ _ _ _ Hget).
      pose proof (R_FindOne c (filter_by_expenseID id) (world s1)) as H.
      destruct (Collection_FindOne D _ _ _ _ _) as [sr w]. exact H.
    + pose proof (R_Find c filter_all (world s1)) as H.
      destruct (Collection_Find D c DBName ExpenseCollections filter_all (world s1))
        as [[cur ferr] w] eqn:Hfind.
      rewrite (GetAllIssues_acquired _ _ _ _ _ _ Hget Hfind). cbn zeta.
      destruct ferr as [x|]; [exact H|].
      match goal with |- context [iterate cur [] ?st] =>
        destruct (iterate_cursor_events cur [] st) as (evs & Hs & _);
        destruct (iterate cur [] st) as [[early|issues] s3] end;
      cbn [snd] in Hs; subst s3; exact H.
    + rewrite (DeleteExpense_acquired _ _ _ _ Hget).
      pose proof (R_DeleteOne c (filter_by_expenseID code) (world s1)) as H.
      destruct (Collection_DeleteOne D _ _ _ _ _) as [err w]. exact H.
    + rewrite (DeleteAll_acquired _ _ _ Hget).
      pose proof (R_DeleteMany c filter_all (world s1)) as H.
      destruct (Collection_DeleteMany D _ _ _ _ _) as [err w]. exact H.
Qed.

End WorldInvariant.

(** ** Further properties on the reference store *)

Section StoreProperties.

Import MemStore.

Lemma lookup_expenseID_marshalled e :
  lookup_field "expenseID" (bson_Marshal e) = Some (BString (ExpenseID e)).
Proof. reflexivity. Qed.

(** X5. The filter of [GetExpensesByID] and [DeleteExpense] agrees with the
    struct tag of [ExpenseID]: among stored Expenses it selects exactly those
    whose [ExpenseID] is the argument; and [bson.D{{}}] selects every stored
    Expense. *)
Theorem filters_select_stored_expenses (id : string) (e : Expense) :
  (matches (filter_by_expenseID id) (bson_Marshal e) = true <-> ExpenseID e = id) /\
  matches filter_all (bson_Marshal e) = true.
Proof.
  split; [|reflexivity].
  rewrite matches_by_expenseID, lookup_expenseID_marshalled.
  split; [intros H; injection H as H; exact H|intros ->; reflexivity].
Qed.

(** X6. Decoding the document of an Expense overwrites every field of the
    target, whatever it held, and gives back without error the Expense with
    the digits of its date below the millisecond dropped, so the Expense
    itself when its date is a whole number of milliseconds; and two Expenses
    have the same document exactly when they agree up to those digits. *)
Theorem unmarshal_marshal_round_trip (e r : Expense) :
  bson_Unmarshal (bson_Marshal e) r = (at_ms e, None) /\
  ((Date e mod 1000000 = 0)%Z -> bson_Unmarshal (bson_Marshal e) r = (e, None)) /\
  (forall e', bson_Marshal e' = bson_Marshal e <-> at_ms e' = at_ms e).
Proof.
  assert (Hdec : forall x y, bson_Unmarshal (bson_Marshal x) y = (at_ms x, None)).
  { intros x y. destruct x, y. reflexivity. }
  split; [apply Hdec|]. split.
  - intros H. rewrite Hdec, (at_ms_whole e H). reflexivity.
  - intros e'. split.
    + intros H. pose proof (Hdec e' r) as H1. rewrite H, Hdec in H1. congruence.
    + intros H. destruct e, e'. unfold at_ms in H. cbn [ID ExpenseID Title Amount Date] in H.
      injection H as -> -> -> -> Hms.
      unfold bson_Marshal. cbn [ID ExpenseID Title Amount Date].
      unfold of_millis in Hms. apply Z.mul_cancel_r in Hms; [|discriminate].
      rewrite Hms. reflexivity.
Qed.

(** A decode error is an error of the driver, never [mongo.ErrNoDocuments]. *)
Lemma unmarshal_error_is_not_ErrNoDocuments d : forall r,
  snd (bson_Unmarshal d r) <> Some ErrNoDocuments.
Proof.
  induction d as [|[k v] d IH]; intros r; [discriminate|].
  cbn [bson_Unmarshal].
  destruct (decode_field (k, v) r) as [r'|err] eqn:Hf; [apply IH|].
  cbn [snd]. intros H. injection H as ->.
  unfold decode_field in Hf.
  repeat match type of Hf with
         | (if ?c then _ else _) = _ => destruct c
         end;
    destruct v; discriminate.
Qed.

Lemma decode_error_is_not_ErrNoDocuments d :
  snd (decode_doc d) <> Some ErrNoDocuments.
Proof. apply unmarshal_error_is_not_ErrNoDocuments. Qed.

Lemma find_head_selected filter docs :
  List.find (matches filter) docs = head (selected filter docs).
Proof.
  induction docs as [|d docs IH]; [reflexivity|].
  unfold selected in *. simpl. destruct (matches filter d); [reflexivity|exact IH].
Qed.

Lemma selected_delete_first filter docs :
  selected filter (delete_first filter docs) = tail (selected filter docs).
Proof.
  induction docs as [|d docs IH]; [reflexivity|].
  unfold selected in *. simpl. destruct (matches filter d) eqn:Hm; [reflexivity|].
  simpl. rewrite Hm. exact IH.
Qed.

Lemma selected_none_left filter docs :
  selected filter (List.filter (fun d => negb (matches filter d)) docs) = [].
Proof.
  induction docs as [|d docs IH]; [reflexivity|].
  unfold selected in *. simpl. destruct (matches filter d) eqn:Hm; simpl; [exact IH|].
  rewrite Hm. exact IH.
Qed.

Lemma selected_all_marshalled es :
  selected filter_all (map bson_Marshal es) = map bson_Marshal es.
Proof.
  induction es as [|e es IH]; [reflexivity|].
  unfold selected in *. cbn [map List.filter].
  rewrite (matches_all_marshalled e), IH. reflexivity.
Qed.

Lemma selected_app filter l1 l2 :
  selected filter (l1 ++ l2) = selected filter l1 ++ selected filter l2.
Proof. apply List.filter_app. Qed.

(** [GetExpensesByID] after a successful acquisition, in terms of the
    documents the filter selects. *)
Lemma GetExpensesByID_selected (s : MState) n s1 id :
  GetMongoClient s = ((Some n, None), s1) ->
  op_err (world s1) = None ->
  GetExpensesByID id s =
    (match head (selected (filter_by_expenseID id) (expenses (world s1))) with
     | Some d => decode_doc d
     | None => (Expense_zero, Some ErrNoDocuments)
     end,
     logged [EvFindOne (Some n) DBName ExpenseCollections (filter_by_expenseID id)] s1).
Proof.
  intros Hget Hop. rewrite (GetExpensesByID_acquired _ _ _ _ Hget).
  cbn [Collection_FindOne driver]. unfold FindOne, refused. rewrite Hop.
  rewrite find_head_selected. unfold expenses.
  destruct (head (selected (filter_by_expenseID id) (colls (world s1) DBName ExpenseCollections)));
    reflexivity.
Qed.

Lemma map_at_ms_whole es :
  Forall (fun e => (Date e mod 1000000 = 0)%Z) es -> map at_ms es = es.
Proof.
  induction 1 as [|x l Hx _ IH]; [reflexivity|].
  cbn [map]. rewrite (at_ms_whole x Hx), IH. reflexivity.
Qed.

(** [GetAllIssues] over a collection of stored Expenses. *)
Lemma GetAllIssues_marshalled (s : MState) n s1 es :
  GetMongoClient s = ((Some n, None), s1) ->
  op_err (world s1) = None ->
  expenses (world s1) = map bson_Marshal es ->
  fst (GetAllIssues s) =
    (map at_ms es, if Nat.eqb (length es) 0 then Some ErrNoDocuments else None) /\
  world (snd (GetAllIssues s)) = world s1.
Proof.
  intros Hget Hop Hdocs.
  assert (Hfind : Collection_Find driver (Some n) DBName ExpenseCollections filter_all (world s1)
                  = ((map bson_Marshal es, None), world s1)).
  { cbn [Collection_Find driver]. unfold Find, refused. rewrite Hop.
    unfold expenses in Hdocs. rewrite Hdocs.
    pose proof (selected_all_marshalled es) as Hsel. unfold selected in Hsel.
    rewrite Hsel. reflexivity. }
  rewrite (GetAllIssues_acquired _ _ _ _ _ _ Hget Hfind). cbn zeta.
  rewrite (iterate_all_decoded (D := driver) (map bson_Marshal es) []).
  - cbn [app fst snd]. rewrite map_map.
    assert (Hmap : map (fun x => fst (decode_doc (bson_Marshal x))) es = map at_ms es).
    { clear. induction es as [|e es IH]; [reflexivity|].
      cbn [map]. rewrite decode_marshalled, IH. reflexivity. }
    rewrite Hmap, length_map. split; reflexivity.
  - clear. induction es as [|e es IH]; constructor; [|exact IH].
    rewrite decode_marshalled. reflexivity.
Qed.

(** X7. [GetExpensesByID] on a collection in which the filter selects no
    document (none has the given [expenseID]) returns the zero Expense with [mongo.ErrNoDocuments], and
    leaves the store as it is. *)
Theorem GetExpensesByID_without_match (s : MState) n s1 id :
  GetMongoClient s = ((Some n, None), s1) ->
  op_err (world s1) = None ->
  selected (filter_by_expenseID id) (expenses (world s1)) = [] ->
  fst (GetExpensesByID id s) = (Expense_zero, Some ErrNoDocuments) /\
  world (snd (GetExpensesByID id s)) = world s1.
Proof.
  intros Hget Hop Hnone.
  rewrite (GetExpensesByID_selected s n s1 id Hget Hop), Hnone. split; reflexivity.
Qed.

(** X8. [GetExpensesByID] returns the first stored Expense with the given
    [expenseID], in the order of the collection (no document before it is
    selected by the filter), with every field as stored, the identifier
    included, whatever follows it; the store is left as it is.  The document
    of an Expense holds its date in whole milliseconds, and that is the date
    returned: the Expense itself when its date has no digits below them. *)
Theorem GetExpensesByID_returns_first_stored (s : MState) n s1 l1 e l2 :
  GetMongoClient s = ((Some n, None), s1) ->
  op_err (world s1) = None ->
  expenses (world s1) = l1 ++ bson_Marshal e :: l2 ->
  selected (filter_by_expenseID (ExpenseID e)) l1 = [] ->
  fst (GetExpensesByID (ExpenseID e) s) = (at_ms e, None) /\
  ((Date e mod 1000000 = 0)%Z -> fst (GetExpensesByID (ExpenseID e) s) = (e, None)) /\
  world (snd (GetExpensesByID (ExpenseID e) s)) = world s1.
Proof.
  intros Hget Hop Hdocs Hl1.
  rewrite (GetExpensesByID_selected s n s1 _ Hget Hop), Hdocs, selected_app.
  rewrite Hl1.
  unfold selected. cbn [app List.filter]. rewrite matches_marshalled.
  cbn [head]. rewrite decode_marshalled. split; [reflexivity|].
  split; [|reflexivity].
  intros H. rewrite (at_ms_whole e H). reflexivity.
Qed.

(** X9. [DeleteExpense code] followed by [GetExpensesByID code]: the read
    reports [mongo.ErrNoDocuments] exactly when at most one document had that
    [expenseID]; otherwise it decodes the second of the documents that had
    it, and returns it when that is the document of a stored Expense. *)
Theorem DeleteExpense_then_GetExpensesByID (s : MState) n s1 code :
  GetMongoClient s = ((Some n, None), s1) ->
  op_err (world s1) = None ->
  let had := selected (filter_by_expenseID code) (expenses (world s1)) in
  let s2 := snd (DeleteExpense code s) in
  fst (GetExpensesByID code s2) =
    match tail had with
    | d :: _ => decode_doc d
    | [] => (Expense_zero, Some ErrNoDocuments)
    end /\
  (snd (fst (GetExpensesByID code s2)) = Some ErrNoDocuments <-> length had <= 1) /\
  (forall d e rest,
      had = d :: bson_Marshal e :: rest ->
      fst (GetExpensesByID code s2) = (at_ms e, None)).
Proof.
  intros Hget Hop. cbn zeta.
  assert (Hread : fst (GetExpensesByID code (snd (DeleteExpense code s))) =
                  match tail (selected (filter_by_expenseID code) (expenses (world s1))) with
                  | d :: _ => decode_doc d
                  | [] => (Expense_zero, Some ErrNoDocuments)
                  end).
  { rewrite (DeleteExpense_acquired _ _ _ _ Hget).
    cbn [Collection_DeleteOne driver]. unfold DeleteOne, refused. rewrite Hop. cbn [snd].
    match goal with |- context [GetExpensesByID code ?st] =>
      rewrite (GetExpensesByID_selected st n st code) end.
    - cbn [fst]. unfold expenses. cbn [world in_world].
      rewrite colls_set_coll, selected_delete_first.
      destruct (tail _); reflexivity.
    - apply (reacquire (D := driver) s _ _ s1 _ _ Hget).
    - exact Hop. }
  split; [exact Hread|]. rewrite Hread. split.
  - destruct (selected (filter_by_expenseID code) (expenses (world s1))) as [|d [|d' rest]];
      cbn [tail length snd].
    + split; [lia|reflexivity].
    + split; [lia|reflexivity].
    + split; [|lia]. intros H. exfalso. exact (decode_error_is_not_ErrNoDocuments d' H).
  - intros d e rest ->. cbn [tail]. apply decode_marshalled.
Qed.

(** X10. [DeleteAll] followed by [GetAllIssues] reports [mongo.ErrNoDocuments]
    with the empty slice, whatever the collection held: the two use the same
    filter; and a collection of stored Expenses is empty afterwards. *)
Theorem DeleteAll_then_GetAllIssues (s : MState) n s1 :
  GetMongoClient s = ((Some n, None), s1) ->
  op_err (world s1) = None ->
  let s2 := snd (DeleteAll s) in
  fst (DeleteAll s) = None /\
  fst (GetAllIssues s2) = ([], Some ErrNoDocuments) /\
  (forall es, expenses (world s1) = map bson_Marshal es -> expenses (world s2) = []).
Proof.
  intros Hget Hop. cbn zeta.
  rewrite (DeleteAll_acquired _ _ _ Hget).
  cbn [Collection_DeleteMany driver]. unfold DeleteMany, refused. rewrite Hop. cbn [fst snd].
  split; [reflexivity|]. split.
  - match goal with |- context [GetAllIssues ?st] =>
      apply (GetAllIssues_empty_cursor (D := driver) st (Some n) st (world st)) end.
    + apply (reacquire (D := driver) s _ _ s1 _ _ Hget).
    + cbn [Collection_Find driver]. unfold Find, refused. cbn [world in_world].
      change (op_err (set_coll DBName ExpenseCollections
                (List.filter (fun d => negb (matches filter_all d))
                   (colls (world s1) DBName ExpenseCollections)) (world s1)))
        with (op_err (world s1)).
      rewrite Hop, colls_set_coll.
      pose proof (selected_none_left filter_all (colls (world s1) DBName ExpenseCollections)) as H.
      unfold selected in H. rewrite H. reflexivity.
  - intros es Hes. unfold expenses in *. cbn [world in_world].
    rewrite colls_set_coll, Hes. clear.
    induction es as [|e es IH]; [reflexivity|].
    cbn [map List.filter]. rewrite (matches_all_marshalled e). exact IH.
Qed.

(** X11. [GetAllIssues] on a collection of stored Expenses that is not empty
    returns all of them, in the order of the collection, without error, and
    leaves the store as it is.  The document of an Expense holds its date in
    whole milliseconds, and those are the dates returned: the Expenses
    themselves when their dates have no digits below them. *)
Theorem GetAllIssues_returns_stored_in_order (s : MState) n s1 es :
  GetMongoClient s = ((Some n, None), s1) ->
  op_err (world s1) = None ->
  expenses (world s1) = map bson_Marshal es ->
  0 < length es ->
  fst (GetAllIssues s) = (map at_ms es, None) /\
  (Forall (fun e => (Date e mod 1000000 = 0)%Z) es -> fst (GetAllIssues s) = (es, None)) /\
  world (snd (GetAllIssues s)) = world s1.
Proof.
  intros Hget Hop Hdocs Hne.
  destruct (GetAllIssues_marshalled s n s1 es Hget Hop Hdocs) as [Hres Hw].
  rewrite Hres. destruct es as [|e es]; [simpl in Hne; lia|].
  split; [reflexivity|]. split; [|exact Hw].
  intros Hwhole. rewrite (map_at_ms_whole _ Hwhole). reflexivity.
Qed.

Lemma insert_docs_success w lst : forall docs docs',
  insert_docs w (map IExpense lst) docs = (docs', None) ->
  exists new, docs' = docs ++ map bson_Marshal new /\ Forall2 same_fields lst new.
Proof.
  induction lst as [|a lst IH]; intros docs docs' H.
  - injection H as <-. exists []. rewrite app_nil_r. split; constructor.
  - cbn [map insert_docs insert_doc] in H.
    destruct (assign_id w docs (ID a)) as [i|]; [|discriminate].
    destruct (IH _ _ H) as (new & -> & Hnew).
    exists (with_id i a :: new). split.
    + rewrite <- app_assoc. reflexivity.
    + constructor; [repeat split|exact Hnew].
Qed.

(** X12. A successful [CreateManyExpenses] followed by [GetAllIssues], on a
    collection of stored Expenses: the read returns the Expenses stored
    before followed by the inserted ones, in the order of the input, each
    equal to its input in [expenseID], [title] and [amount], with the date
    of its input less the digits below the millisecond. *)
Theorem CreateManyExpenses_then_GetAllIssues (s : MState) lst s' old :
  CreateManyExpenses lst s = (None, s') ->
  expenses (world s) = map bson_Marshal old ->
  exists new,
    fst (GetAllIssues s') = (map at_ms old ++ new, None) /\
    Forall2 (fun a b => same_fields (at_ms a) b) lst new.
Proof.
  intros Hcreate Hold.
  destruct (GetMongoClient s) as [[c err] s1] eqn:Hget.
  pose proof (GetMongoClient_world s) as Hworld. rewrite Hget in Hworld. cbn [snd] in Hworld.
  destruct err as [x|].
  { destruct (failed_acquisition s c x s1 Hget) as (_ & H2 & _).
    rewrite H2 in Hcreate. discriminate. }
  rewrite (CreateManyExpenses_acquired _ _ _ _ Hget), to_insertable_map in Hcreate.
  cbn [Collection_InsertMany driver] in Hcreate. unfold InsertMany in Hcreate.
  destruct (refused c (world s1)) as [x|] eqn:Hrefused; [discriminate|].
  destruct c as [n|]; [|discriminate]. cbn [refused] in Hrefused.
  destruct lst as [|a lst]; [discriminate|].
  set (docs := colls (world s1) DBName ExpenseCollections) in *.
  cbn [map] in Hcreate.
  destruct (insert_docs (world s1) (IExpense a :: map IExpense lst) docs)
    as [docs' err] eqn:Hins.
  injection Hcreate as -> <-.
  destruct (insert_docs_success (world s1) (a :: lst) docs docs' Hins) as (new & -> & Hnew).
  exists (map at_ms new). split.
  - match goal with |- context [GetAllIssues ?st] =>
      destruct (GetAllIssues_marshalled st n st (old ++ new)) as [Hres _] end.
    + apply (reacquire (D := driver) s _ _ s1 _ _ Hget).
    + exact Hrefused.
    + unfold expenses. cbn [world in_world]. rewrite colls_set_coll.
      unfold docs. rewrite Hworld. unfold expenses in Hold. rewrite Hold, map_app. reflexivity.
    + rewrite Hres, map_app. inversion Hnew; subst. rewrite length_app. cbn [length].
      rewrite Nat.add_succ_r. reflexivity.
  - clear -Hnew. induction Hnew as [|x y l l' Hxy _ IH]; constructor; [|exact IH].
    destruct Hxy as (H1 & H2 & H3 & H4). unfold same_fields, at_ms.
    cbn [ExpenseID Title Amount Date]. rewrite H4. repeat split; assumption.
Qed.

(** X13. [CreateExpense] either returns nil and has appended exactly the
    document of the Expense, under the identifier the server gave it, after
    the documents already there; or returns an error and has left the
    collection as it was. *)
Theorem CreateExpense_appends_or_keeps (s : MState) (e : Expense) :
  let docs := expenses (world s) in
  let docs' := expenses (world (snd (CreateExpense e s))) in
  match fst (CreateExpense e s) with
  | None =>
      exists i, assign_id (world s) docs (ID e) = Some i /\
                docs' = docs ++ [bson_Marshal (with_id i e)]
  | Some _ => docs' = docs
  end.
Proof.
  cbn zeta.
  destruct (GetMongoClient s) as [[c err] s1] eqn:Hget.
  pose proof (GetMongoClient_world s) as Hworld. rewrite Hget in Hworld. cbn [snd] in Hworld.
  destruct err as [x|].
  { destruct (failed_acquisition s c x s1 Hget) as (H1 & _).
    rewrite H1. cbn [fst snd]. rewrite Hworld. reflexivity. }
  rewrite (CreateExpense_acquired _ _ _ _ Hget).
  cbn [Collection_InsertOne driver]. unfold InsertOne.
  destruct (refused c (world s1)) as [x|].
  { cbn [fst snd world in_world]. rewrite Hworld. reflexivity. }
  unfold insert_doc. rewrite Hworld.
  fold (expenses (world s)).
  destruct (assign_id (world s) (expenses (world s)) (ID e)) as [i|].
  - cbn [fst snd]. exists i. split; [reflexivity|].
    unfold expenses at 1. cbn [world in_world]. apply colls_set_coll.
  - cbn [fst snd]. unfold expenses at 1. cbn [world in_world]. apply colls_set_coll.
Qed.

End StoreProperties.

Section StoreFrame.

Import MemStore.

Lemma elsewhere_same_refl w : elsewhere_same w w.
Proof. repeat split. Qed.

Lemma elsewhere_same_trans w1 w2 w3 :
  elsewhere_same w1 w2 -> elsewhere_same w2 w3 -> elsewhere_same w1 w3.
Proof.
  intros (A1 & A2 & A3 & A4 & A5) (B1 & B2 & B3 & B4 & B5).
  repeat split; try congruence.
  intros db coll H. rewrite (B5 db coll H). apply A5, H.
Qed.

Lemma elsewhere_same_set_coll docs w :
  elsewhere_same w (set_coll DBName ExpenseCollections docs w).
Proof.
  repeat split. intros db coll H. cbn [colls set_coll]. rewrite H. reflexivity.
Qed.

(** X14. No sequence of operations changes a collection other than
    [expenses.expense], nor the configuration of the server. *)
Theorem operations_touch_only_expense_collection (s : MState) (ops : list Op) :
  elsewhere_same (world s) (world (exec_all ops s)).
Proof.
  revert s. induction ops as [|o ops IH]; intros s; [apply elsewhere_same_refl|].
  cbn [exec_all fold_left].
  eapply elsewhere_same_trans; [|apply IH].
  apply (exec_relates (D := driver) elsewhere_same elsewhere_same_refl elsewhere_same_trans).
  - intros w. cbn [mongo_Connect driver]. unfold Connect.
    destruct (connect_err w); apply elsewhere_same_refl.
  - intros c w. apply elsewhere_same_refl.
  - intros c doc w. cbn [Collection_InsertOne driver]. unfold InsertOne.
    destruct (refused c w); [apply elsewhere_same_refl|].
    destruct (insert_doc w doc (colls w DBName ExpenseCollections)).
    apply elsewhere_same_set_coll.
  - intros c docs w. cbn [Collection_InsertMany driver]. unfold InsertMany.
    destruct (refused c w); [apply elsewhere_same_refl|].
    destruct docs; [apply elsewhere_same_refl|].
    destruct (insert_docs w _ (colls w DBName ExpenseCollections)).
    apply elsewhere_same_set_coll.
  - intros c f w. cbn [Collection_FindOne driver]. unfold FindOne.
    destruct (refused c w); [apply elsewhere_same_refl|].
    destruct (List.find _ _); apply elsewhere_same_refl.
  - intros c f w. cbn [Collection_Find driver]. unfold Find.
    destruct (refused c w); apply elsewhere_same_refl.
  - intros c f w. cbn [Collection_DeleteOne driver]. unfold DeleteOne.
    destruct (refused c w); [apply elsewhere_same_refl|apply elsewhere_same_set_coll].
  - intros c f w. cbn [Collection_DeleteMany driver]. unfold DeleteMany.
    destruct (refused c w); [apply elsewhere_same_refl|apply elsewhere_same_set_coll].
Qed.

End StoreFrame.

(** ** Further properties of the concurrent callers *)

Section Exclusion.

Import Concurrent Stages.

Context {D : Driver} (w : World D).

Lemma critical_owns_mutex (s : CState D) t :
  Inv w s -> critical (pcs s t) = true -> mutex s = Some t.
Proof.
  intros [Hall _] Hcrit. pose proof (Hall t) as Ht. unfold pc_ok in Ht.
  destruct (pcs s t); cbn [pc_spec critical] in *; try discriminate;
    intuition congruence.
Qed.

(** X15. Under every interleaving at most one goroutine is between [Lock] and
    [Unlock] of [mongoOnce], so at most one runs the initialization block;
    and the owner of the mutex is always such a goroutine. *)
Theorem at_most_one_caller_initializes (sched : list tid) (t1 t2 : tid) :
  let s := run sched (cinit w) in
  (critical (pcs s t1) = true -> critical (pcs s t2) = true -> t1 = t2) /\
  (mutex s = Some t1 -> critical (pcs s t1) = true).
Proof.
  cbn zeta. pose proof (reachable_Inv w sched) as HInv. split.
  - intros H1 H2.
    pose proof (critical_owns_mutex _ t1 HInv H1) as M1.
    pose proof (critical_owns_mutex _ t2 HInv H2) as M2. congruence.
  - intros Hm. destruct HInv as [Hall _]. pose proof (Hall t1) as Ht. unfold pc_ok in Ht.
    destruct (pcs (run sched (cinit w)) t1); cbn [pc_spec] in Ht; try reflexivity;
      exfalso; intuition congruence.
Qed.

(** X16. Once the guard has fired, a caller that starts returns in two steps
    with the outcome of the one initialization, without taking the mutex
    and without waiting for whoever holds it, and changes nothing. *)
Theorem initialized_callers_do_not_wait (sched : list tid) (t : tid) :
  let s := run sched (cinit w) in
  mongoOnce (shared s) = true ->
  pcs s t = AtCall ->
  let s' := step t (step t s) in
  pcs s' t = Returned (fst (fst (GetMongoClient (initial w))))
                      (snd (fst (GetMongoClient (initial w)))) /\
  mutex s' = mutex s /\ shared s' = shared s.
Proof.
  cbn zeta. intros Hflag Hpc.
  pose proof (reachable_Inv w sched) as HInv.
  pose proof (Inv_fired w _ HInv Hflag) as Hsh.
  set (s := run sched (cinit w)) in *.
  assert (H1 : step t s = goto t AtReturn s).
  { unfold step. rewrite Hpc, Hflag. reflexivity. }
  assert (H2 : step t (goto t AtReturn s) =
               goto t (Returned (clientInstance (shared s)) (clientInstanceError (shared s)))
                    (goto t AtReturn s)).
  { unfold step. cbn [pcs goto]. rewrite Nat.eqb_refl. reflexivity. }
  rewrite H1, H2. cbn [pcs goto shared mutex]. rewrite Nat.eqb_refl.
  rewrite Hsh, stages_sequential. repeat split.
Qed.

End Exclusion.

(** ** The component of [ExpenseItem.js] *)

Section Component.

Import ExpenseItem.

Lemma interact_all_cons i acts m :
  interact_all (i :: acts) m = interact_all acts (interact i m).
Proof. reflexivity. Qed.

Lemma latest_props_cons i acts p :
  latest_props p (i :: acts) =
  latest_props (match i with Rerender p' => p' | Click => p end) acts.
Proof. reflexivity. Qed.

(** A click on a rendered component sets the hook. *)
Lemma interact_Click p v :
  interact Click (mkMounted p (Some v)) = mkMounted p (Some (JString "Updated!")).
Proof. reflexivity. Qed.

Lemma interact_Rerender p' p v :
  interact (Rerender p') (mkMounted p (Some v)) = mkMounted p' (Some v).
Proof. reflexivity. Qed.

Lemma hook_after (acts : list interaction) : forall p v,
  hook (interact_all acts (mkMounted p (Some v))) =
    Some (if existsb is_click acts then JString "Updated!" else v).
Proof.
  induction acts as [|i acts IH]; intros p v; [reflexivity|].
  rewrite interact_all_cons. destruct i as [p'|].
  - rewrite interact_Rerender. apply IH.
  - rewrite interact_Click, IH. cbn [existsb is_click orb].
    destruct (existsb is_click acts); reflexivity.
Qed.

Lemma last_props_after (acts : list interaction) : forall p v,
  last_props (interact_all acts (mkMounted p (Some v))) = latest_props p acts.
Proof.
  induction acts as [|i acts IH]; intros p v; [reflexivity|].
  rewrite interact_all_cons, latest_props_cons. destruct i as [p'|].
  - rewrite interact_Rerender. apply IH.
  - rewrite interact_Click. apply IH.
Qed.

(** X17. The heading shows the [title] the component was mounted with until the
    button is clicked, whatever titles later renders pass, and [Updated!]
    from the first click on, for ever. *)
Theorem shown_title_after_interactions (props : Props) (acts : list interaction) :
  shown_title (view (interact_all acts (mount props))) =
  Some (if existsb is_click acts then JString "Updated!" else title props).
Proof.
  pose proof (hook_after acts props (title props)) as H.
  change (mkMounted props (Some (title props))) with (mount props) in H.
  unfold view. rewrite H. reflexivity.
Qed.

(** X18. The price and the date shown are those of the props of the latest
    render: a click never changes them. *)
Theorem shown_amount_and_date_follow_props (props : Props) (acts : list interaction) :
  let m := interact_all acts (mount props) in
  shown_amount (view m) = Some (amount (latest_props props acts)) /\
  shown_date (view m) = Some (date (latest_props props acts)).
Proof.
  cbn zeta.
  pose proof (hook_after acts props (title props)) as Hv.
  pose proof (last_props_after acts props (title props)) as Hp.
  change (mkMounted props (Some (title props))) with (mount props) in Hv, Hp.
  unfold view. rewrite Hv, Hp. split; reflexivity.
Qed.

End Component.

(** ** The further properties at concrete inputs *)

Section FurtherInstances.

Import MemStore Concurrent Stages.

Lemma operation_calls_expense_collection_once_witness :
  trace (exec OpDeleteAll (init_state ping_fails)) =
  trace (snd (GetMongoClient (init_state ping_fails))).
Proof.
  destruct (operation_calls_expense_collection_once (D := MemStore.driver)
              OpDeleteAll (init_state ping_fails)) as (evs & Htr & _ & _ & _ & Hfail).
  rewrite Htr, (Hfail (DriverError "ping failed") eq_refl). apply app_nil_r.
Defined.

Lemma failed_initialization_is_permanent_witness :
  let s1 := snd (GetMongoClient (init_state ping_fails)) in
  exec_all [OpCreateExpense main_expense; OpGetAllIssues] s1 = s1 /\
  result_of OpDeleteAll (exec_all [OpCreateExpense main_expense; OpGetAllIssues] s1)
    = Some (DriverError "ping failed").
Proof.
  apply (failed_initialization_is_permanent (init_state ping_fails) (Some 1)
           (DriverError "ping failed")).
  reflexivity.
Defined.

Lemma filters_select_stored_expenses_witness : ExpenseID main_expense = "1d".
Proof.
  apply (proj1 (proj1 (filters_select_stored_expenses "1d" main_expense))).
  reflexivity.
Defined.

Lemma unmarshal_marshal_round_trip_witness :
  bson_Unmarshal (bson_Marshal main_expense) second_expense = (main_expense, None) /\
  bson_Marshal now_expense =
  bson_Marshal (mkExpense 0%Z "1d" "First expense" 4615063718147915776%Z
                          1700000000123000000%Z).
Proof.
  split.
  - apply (proj1 (proj2 (unmarshal_marshal_round_trip main_expense second_expense))).
    reflexivity.
  - apply (proj2 (proj2 (unmarshal_marshal_round_trip
                           (mkExpense 0%Z "1d" "First expense" 4615063718147915776%Z
                                      1700000000123000000%Z) Expense_zero)) now_expense).
    reflexivity.
Defined.

Lemma GetExpensesByID_without_match_witness :
  let s := init_state (healthy [bson_Marshal second_expense]) in
  fst (GetExpensesByID "1d" s) = (Expense_zero, Some ErrNoDocuments) /\
  world (snd (GetExpensesByID "1d" s)) = world (snd (GetMongoClient s)).
Proof.
  apply (GetExpensesByID_without_match
           (init_state (healthy [bson_Marshal second_expense])) 1); reflexivity.
Defined.

Lemma GetExpensesByID_returns_first_stored_witness :
  let s := init_state (healthy [bson_Marshal second_expense; bson_Marshal earlier_expense;
                                bson_Marshal main_expense]) in
  fst (GetExpensesByID "1d" s) = (earlier_expense, None) /\
  world (snd (GetExpensesByID "1d" s)) = world (snd (GetMongoClient s)).
Proof.
  destruct (GetExpensesByID_returns_first_stored
              (init_state (healthy [bson_Marshal second_expense; bson_Marshal earlier_expense;
                                    bson_Marshal main_expense]))
              1 _ [bson_Marshal second_expense] earlier_expense [bson_Marshal main_expense]
              eq_refl eq_refl eq_refl eq_refl) as (_ & Hwhole & Hworld).
  split; [apply Hwhole; reflexivity|exact Hworld].
Defined.

Lemma DeleteExpense_then_GetExpensesByID_witness :
  (let s := init_state (healthy [bson_Marshal earlier_expense; bson_Marshal main_expense]) in
   fst (GetExpensesByID "1d" (snd (DeleteExpense "1d" s))) = (main_expense, None)) /\
  (let s := init_state (healthy [bson_Marshal main_expense; bson_Marshal second_expense]) in
   snd (fst (GetExpensesByID "1d" (snd (DeleteExpense "1d" s)))) = Some ErrNoDocuments).
Proof.
  split.
  - apply (proj2 (proj2 (DeleteExpense_then_GetExpensesByID
                           (init_state (healthy [bson_Marshal earlier_expense;
                                                 bson_Marshal main_expense]))
                           1 _ "1d" eq_refl eq_refl))
             (bson_Marshal earlier_expense) main_expense []).
    reflexivity.
  - apply (proj1 (proj2 (DeleteExpense_then_GetExpensesByID
                           (init_state (healthy [bson_Marshal main_expense;
                                                 bson_Marshal second_expense]))
                           1 _ "1d" eq_refl eq_refl))).
    vm_compute. lia.
Defined.

Lemma DeleteAll_then_GetAllIssues_witness :
  let s := init_state (healthy [bson_Marshal earlier_expense; bson_Marshal main_expense]) in
  fst (DeleteAll s) = None /\
  fst (GetAllIssues (snd (DeleteAll s))) = ([], Some ErrNoDocuments) /\
  expenses (world (snd (DeleteAll s))) = [].
Proof.
  destruct (DeleteAll_then_GetAllIssues
              (init_state (healthy [bson_Marshal earlier_expense; bson_Marshal main_expense]))
              1 _ eq_refl eq_refl) as (H1 & H2 & H3).
  split; [exact H1|]. split; [exact H2|].
  apply (H3 [earlier_expense; main_expense]). reflexivity.
Defined.

Lemma GetAllIssues_returns_stored_in_order_witness :
  let s := init_state (healthy [bson_Marshal earlier_expense; bson_Marshal main_expense]) in
  fst (GetAllIssues s) = ([earlier_expense; main_expense], None) /\
  world (snd (GetAllIssues s)) = world (snd (GetMongoClient s)).
Proof.
  destruct (GetAllIssues_returns_stored_in_order
              (init_state (healthy [bson_Marshal earlier_expense; bson_Marshal main_expense]))
              1 _ [earlier_expense; main_expense] eq_refl eq_refl eq_refl)
    as (_ & Hwhole & Hworld).
  - simpl. lia.
  - split; [apply Hwhole; repeat constructor|exact Hworld].
Defined.

Lemma CreateManyExpenses_then_GetAllIssues_witness :
  let s := init_state (healthy [bson_Marshal earlier_expense]) in
  exists new,
    fst (GetAllIssues (snd (CreateManyExpenses [main_expense; second_expense] s)))
      = (map at_ms [earlier_expense] ++ new, None) /\
    Forall2 (fun a b => same_fields (at_ms a) b) [main_expense; second_expense] new.
Proof.
  apply (CreateManyExpenses_then_GetAllIssues
           (init_state (healthy [bson_Marshal earlier_expense]))
           [main_expense; second_expense] _ [earlier_expense]);
    reflexivity.
Defined.

Lemma at_most_one_caller_initializes_witness :
  0 = 0 /\
  critical (pcs (run [0; 1; 0; 1; 0; 1] (cinit (D := MemStore.driver) (healthy []))) 0) = true.
Proof.
  destruct (at_most_one_caller_initializes (D := MemStore.driver) (healthy [])
              [0; 1; 0; 1; 0; 1] 0 0) as [Hone Howner].
  split; [apply Hone; reflexivity|apply Howner; reflexivity].
Defined.

Lemma initialized_callers_do_not_wait_witness :
  let s := run [0; 0; 0; 0; 0; 0; 0; 0] (cinit (D := MemStore.driver) (healthy [])) in
  let s' := step 1 (step 1 s) in
  pcs s' 1 = Returned (Some 1) None /\ mutex s' = mutex s /\ shared s' = shared s.
Proof.
  apply (initialized_callers_do_not_wait (D := MemStore.driver) (healthy [])
           [0; 0; 0; 0; 0; 0; 0; 0] 1); reflexivity.
Defined.

(** The component: two renders and a click. *)
Example component_keeps_first_title_until_click :
  let p1 := ExpenseItem.mkProps (ExpenseItem.JString "Car") (ExpenseItem.JNumber 300)
                                (ExpenseItem.JDate 1) in
  let p2 := ExpenseItem.mkProps (ExpenseItem.JString "Bike") (ExpenseItem.JNumber 80)
                                (ExpenseItem.JDate 2) in
  let m1 := ExpenseItem.interact (ExpenseItem.Rerender p2) (ExpenseItem.mount p1) in
  let m2 := ExpenseItem.interact ExpenseItem.Click m1 in
  ExpenseItem.shown_title (ExpenseItem.view m1) = Some (ExpenseItem.JString "Car") /\
  ExpenseItem.shown_amount (ExpenseItem.view m1) = Some (ExpenseItem.JNumber 80) /\
  ExpenseItem.shown_title (ExpenseItem.view m2) = Some (ExpenseItem.JString "Updated!") /\
  ExpenseItem.shown_date (ExpenseItem.view m2) = Some (ExpenseItem.JDate 2).
Proof. repeat split. Qed.

End FurtherInstances.

(** ** The initialization block on the nil client *)

Section NilClientFacts.

Context {D : Driver}.
Implicit Types s : State D.

(** Where [Ping] is not called on the nil client, the two models of
    [GetMongoClient] agree: once the guard has fired, and when
    [mongo.Connect] returns a client. *)
Lemma GetMongoClient_agrees s :
  (mongoOnce s = true \/ fst (fst (mongo_Connect D URI (world s))) <> None) ->
  NilClient.GetMongoClient s = (NilClient.Normal (fst (GetMongoClient s)), snd (GetMongoClient s)).
Proof.
  intros H. unfold NilClient.GetMongoClient.
  destruct (mongoOnce s) eqn:Hguard.
  - rewrite GetMongoClient_fired by exact Hguard. reflexivity.
  - destruct H as [H|H]; [discriminate|].
    rewrite GetMongoClient_first by exact Hguard.
    unfold NilClient.init_block, NilClient.Ping_call, Concurrent.do_connect,
      Concurrent.do_ping, Concurrent.set_done, bind, log, call, ret,
      set_clientInstance, set_clientInstanceError.
    cbn [world trace clientInstance clientInstanceError mongoOnce].
    destruct (mongo_Connect D URI (world s)) as [[c e1] w1]. cbn [fst] in H.
    destruct c as [n|]; [|congruence].
    destruct e1 as [x1|]; cbn;
      destruct (Client_Ping D (Some n) w1) as [[x2|] w2]; cbn;
      rewrite <- app_assoc; reflexivity.
Qed.

(** The first call when [mongo.Connect] fails. *)
Lemma GetMongoClient_connect_failure s e w1 :
  mongoOnce s = false ->
  mongo_Connect D URI (world s) = ((None, Some e), w1) ->
  NilClient.GetMongoClient s =
    (NilClient.Panic,
     mkState (clientInstance s) (Some e) true w1 (trace s ++ [EvConnect URI; EvPing None])).
Proof.
  intros Hguard Hconnect. unfold NilClient.GetMongoClient. rewrite Hguard.
  unfold NilClient.init_block, NilClient.Ping_call, Concurrent.do_connect,
    Concurrent.set_done, bind, log, call, ret, set_clientInstanceError, logged.
  cbn [world trace clientInstance clientInstanceError mongoOnce].
  rewrite Hconnect. cbn. rewrite <- app_assoc. reflexivity.
Qed.


End NilClientFacts.

Section NilClientInstances.

(** C3 at a server that cannot be connected to: [mongo.Connect] returns the
    nil client with its error, the error is recorded, and the call of [Ping]
    on the nil client panics, so the first caller of [GetMongoClient] is not
    returned the error; the guard has fired, and a later caller is returned
    the nil client with the connect error. *)
Theorem connect_failure_panics_first_caller :
  fst (MemStore.Connect URI connect_fails) = (None, Some (DriverError "connect failed")) /\
  (let '(r, s') := NilClient.GetMongoClient (init_state connect_fails) in
   r = NilClient.Panic /\
   trace s' = [EvConnect URI; EvPing None] /\
   mongoOnce s' = true /\
   clientInstance s' = None /\
   clientInstanceError s' = Some (DriverError "connect failed") /\
   NilClient.GetMongoClient s' =
     (NilClient.Normal (None, Some (DriverError "connect failed")), s')).
Proof. split; [reflexivity|]. repeat split. Qed.



End NilClientInstances.
